(** * Market-data pipeline (dsaprojeto1_local.py): extract, transform, load

    A shallow embedding of the pipeline of [src/dsaprojeto1_local.py]:
    the schema manager [dsa_cria_ou_conecta_banco], the extractor
    [dsa_extrai_dados_acao], the transformer [dsa_limpa_e_transforma_dados],
    the loader [dsa_carrega_dados] and the orchestrator [main].

    The external collaborators are modelled by what the code uses of them:
    - a pandas DataFrame is a labelled index plus its columns, each a label
      with one cell per row;
    - the provider ([yfinance]) and the wall clock are oracles of an
      environment, asked at a logical time;
    - the SQLite connection is the committed table plus the working copy of
      the open transaction;
    - the log is the list of the records emitted, one constructor per
      logging call of the source. *)

From Stdlib Require Import List String ZArith QArith Bool Arith Lia.
Import ListNotations.
Local Open Scope string_scope.
Local Open Scope list_scope.
Local Open Scope nat_scope.

Set Implicit Arguments.

(** ** Cell values *)

(** A calendar date, as Python's [datetime.date]. *)
Record Date : Type := mkDate { year : Z; month : Z; day : Z }.

(** A pandas [Timestamp]: a calendar date, a time of day and an optional
    UTC offset (in minutes) for timezone-aware stamps. *)
Record Timestamp : Type := mkTimestamp {
  ts_date : Date;
  ts_hour : Z;
  ts_minute : Z;
  ts_second : Z;
  ts_nanosecond : Z;
  ts_utcoffset : option Z
}.

(** The values a cell holds.  Prices are floats that the pipeline carries
    and never computes with: a float is represented by the rational it
    denotes, and NaN, None and NaT are all [VNull]. *)
Inductive value : Type :=
| VNull
| VFloat (x : Q)
| VInt (n : Z)
| VText (s : string)
| VTimestamp (t : Timestamp)
| VDate (d : Date).

Definition Date_eq_dec (a b : Date) : {a = b} + {a <> b}.
Proof. decide equality; apply Z.eq_dec. Defined.

Definition Timestamp_eq_dec (a b : Timestamp) : {a = b} + {a <> b}.
Proof.
  decide equality; try apply Z.eq_dec; try apply Date_eq_dec.
  decide equality; apply Z.eq_dec.
Defined.

Definition Q_eq_dec (a b : Q) : {a = b} + {a <> b}.
Proof. decide equality; [apply Pos.eq_dec | apply Z.eq_dec]. Defined.

Definition value_eq_dec (a b : value) : {a = b} + {a <> b}.
Proof.
  decide equality;
    [apply Q_eq_dec | apply Z.eq_dec | apply string_dec
    | apply Timestamp_eq_dec | apply Date_eq_dec].
Defined.

Definition value_eqb (a b : value) : bool :=
  if value_eq_dec a b then true else false.

Definition is_null (v : value) : bool :=
  match v with VNull => true | _ => false end.

(** ** DataFrames *)

(** A frame, column by column as pandas stores it: the name of the index,
    the labels of the index (one per row), and the columns, each a label
    with its cells.  Labels may repeat, as pandas allows. *)
Record DataFrame : Type := mkDataFrame {
  df_index_name : option string;
  df_index : list value;
  df_data : list (string * list value)
}.

Definition df_columns (df : DataFrame) : list string := map fst (df_data df).

(** [len(df)]. *)
Definition df_len (df : DataFrame) : nat := List.length (df_index df).

(** [df.empty]: some axis has length zero. *)
Definition df_empty (df : DataFrame) : bool :=
  match df_index df, df_data df with
  | [], _ => true
  | _, [] => true
  | _, _ => false
  end.

Definition has_column (c : string) (df : DataFrame) : bool :=
  existsb (String.eqb c) (df_columns df).

(** The columns labelled [c]. *)
Definition columns_of (c : string) (data : list (string * list value))
  : list (string * list value) :=
  filter (fun col => String.eqb c (fst col)) data.

(** [df.iterrows()]: the rows in order, each with its index label and its
    cells in column order. *)
Definition iterrows (df : DataFrame) : list (value * list value) :=
  map (fun i => (nth i (df_index df) VNull,
                 map (fun col => nth i (snd col) VNull) (df_data df)))
      (seq 0 (df_len df)).

(** ** Exceptions *)

Inductive exn : Type :=
| KeyError (key : string)
| ValueError (msg : string)
| IndexError (msg : string).

Inductive outcome (A : Type) : Type :=
| Ret (a : A)
| Raise (e : exn).
Arguments Ret {A} a.
Arguments Raise {A} e.

(** ** pandas operations used by the transformer *)

(** The labels of a [RangeIndex] of [n] rows. *)
Definition range_index (n : nat) : list value :=
  map (fun i => VInt (Z.of_nat i)) (seq 0 n).

(** The label [reset_index] gives the column made from the index. *)
Definition reset_index_label (df : DataFrame) : string :=
  match df_index_name df with
  | Some n => n
  | None => if has_column "index" df then "level_0" else "index"
  end.

(** [df.reset_index()]: the index becomes the first column, under the name
    of the index; pandas raises [ValueError] when that label is already a
    column. *)
Definition reset_index (df : DataFrame) : outcome DataFrame :=
  let lbl := reset_index_label df in
  if has_column lbl df
  then Raise (ValueError ("cannot insert " ++ lbl ++ ", already exists"))
  else Ret (mkDataFrame None (range_index (df_len df))
              ((lbl, df_index df) :: df_data df)).

(** [df[c] = v] with a scalar [v]: every column labelled [c] is overwritten
    with [v] in each row; where there is none, the column is appended
    last. *)
Definition set_column (c : string) (v : value) (df : DataFrame) : DataFrame :=
  let cells := repeat v (df_len df) in
  if has_column c df
  then mkDataFrame (df_index_name df) (df_index df)
         (map (fun col => if String.eqb c (fst col) then (fst col, cells)
                          else col)
              (df_data df))
  else mkDataFrame (df_index_name df) (df_index df)
         (df_data df ++ [(c, cells)]).

(** The mapping of line 125: provider labels to the labels of the table. *)
Definition rename_label (c : string) : string :=
  if String.eqb c "Date" then "data_pregao"
  else if String.eqb c "Open" then "abertura"
  else if String.eqb c "High" then "alta"
  else if String.eqb c "Low" then "baixa"
  else if String.eqb c "Close" then "fechamento"
  else if String.eqb c "Volume" then "volume"
  else c.

(** [df.rename(columns=..., inplace=True)]. *)
Definition rename_columns (df : DataFrame) : DataFrame :=
  mkDataFrame (df_index_name df) (df_index df)
    (map (fun col => (rename_label (fst col), snd col)) (df_data df)).

Definition colunas_desejadas : list string :=
  ["ticker"; "data_pregao"; "abertura"; "alta"; "baixa"; "fechamento";
   "volume"; "datetime_coleta"].

(** The labels line 138 selects: the wanted ones that exist in the frame. *)
Definition colunas_existentes (df : DataFrame) : list string :=
  filter (fun c => has_column c df) colunas_desejadas.

(** [df[labels]]: for each label in turn, every column that carries it. *)
Definition select_columns (labels : list string) (df : DataFrame) : DataFrame :=
  mkDataFrame (df_index_name df) (df_index df)
    (flat_map (fun c => columns_of c (df_data df)) labels).

(** ** The environment and the world *)

(** What the provider call [yf.Ticker(t).history(period='5d')] does. *)
Inductive ProviderReply : Type :=
| Raises (msg : string)
| Frame (dados : DataFrame).

(** Where the backend fails in [dsa_cria_ou_conecta_banco]: nowhere, in
    [sqlite3.connect], or in the [CREATE TABLE] statement. *)
Inductive ConnectFault : Type :=
| NoFault
| ConnectFails (msg : string)
| CreateFails (msg : string).

(** The oracles of a run.  The provider and the clock are asked at a logical
    time, so that two calls may answer differently; [pd_to_datetime] is
    pandas' conversion of a text or a number to a timestamp, where it has
    one. *)
Record Env : Type := mkEnv {
  yf_history : nat -> string -> ProviderReply;
  datetime_now : nat -> string;
  pd_to_datetime : value -> option Timestamp;
  sqlite_fault : ConnectFault
}.

Inductive Level : Type := INFO | WARNING | ERROR | CRITICAL.

(** One constructor per logging call of the source, in source order. *)
Inductive Event : Type :=
| SchemaVerified                              (* line 60 *)
| ConnectFailed (msg : string)                (* line 68 *)
| ExtractStart (ticker : string)              (* line 79 *)
| NoDataFound (ticker : string)               (* line 91 *)
| ExtractFailed (ticker : string) (msg : string)  (* line 100 *)
| TransformStart (ticker : string)            (* line 113 *)
| NothingToLoad                               (* line 153 *)
| LoadSucceeded (ticker_log : list value)     (* line 190 *)
| LoadFailed (msg : string)                   (* line 195 *)
| PipelineStart                               (* line 204 *)
| NoConnection                                (* line 211 *)
| Skipped (ticker : string)                   (* line 228 *)
| ConnectionClosed                            (* line 234 *)
| PipelineDone.                               (* line 237 *)

Definition LogRecord : Type := (Level * Event)%type.

(** A stored row: its cells in the column order of the table. *)
Definition SqlRow : Type := list value.

(** The world a run acts on: the log, the logical time, the committed table
    of the database file ([None] until the table is created), the working
    copy of the open transaction ([None] when no transaction is open), and
    how many connections were opened and closed. *)
Record World : Type := mkWorld {
  w_log : list LogRecord;
  w_tick : nat;
  w_table : option (list SqlRow);
  w_txn : option (list SqlRow);
  w_connects : nat;
  w_closes : nat
}.

(** ** A state monad with exceptions *)

Definition M (A : Type) : Type := World -> outcome A * World.

Definition ret {A : Type} (a : A) : M A := fun w => (Ret a, w).

Definition raise {A : Type} (e : exn) : M A := fun w => (Raise e, w).

Definition bind {A B : Type} (m : M A) (k : A -> M B) : M B :=
  fun w =>
    match m w with
    | (Ret a, w') => k a w'
    | (Raise e, w') => (Raise e, w')
    end.

Definition lift {A : Type} (o : outcome A) : M A := fun w => (o, w).

Declare Scope py_scope.
Delimit Scope py_scope with py.
Notation "x <- m ;; k" := (bind m (fun x => k))
  (at level 100, m at next level, right associativity) : py_scope.
Notation "m ;; k" := (bind m (fun _ => k))
  (at level 100, right associativity) : py_scope.
Local Open Scope py_scope.

(** Python's [None] as the value of a function that returns nothing. *)
Inductive NoneType : Type := PyNone.

Definition logging (lvl : Level) (ev : Event) : M NoneType :=
  fun w => (Ret PyNone,
            mkWorld (w_log w ++ [(lvl, ev)]) (w_tick w) (w_table w) (w_txn w)
                    (w_connects w) (w_closes w)).

(** Read the logical time and advance it. *)
Definition next_tick : M nat :=
  fun w => (Ret (w_tick w),
            mkWorld (w_log w) (S (w_tick w)) (w_table w) (w_txn w)
                    (w_connects w) (w_closes w)).

(** A [for] loop: the body runs on each element in order, and an exception
    leaves the loop. *)
Fixpoint for_each {A : Type} (body : A -> M NoneType) (l : list A) : M NoneType :=
  match l with
  | [] => ret PyNone
  | a :: l' => body a ;; for_each body l'
  end.

(** ** The table and the statements *)

Inductive SqlType : Type := TEXT | DATE | REAL | INTEGER.

Record ColumnDef : Type := mkColumn {
  col_name : string;
  col_type : SqlType;
  col_notnull : bool
}.

Definition NOME_TABELA : string := "dados_acoes_diario".

(** The columns of the [CREATE TABLE] statement of line 42. *)
Definition TABELA : list ColumnDef :=
  [ mkColumn "ticker" TEXT true;
    mkColumn "data_pregao" DATE true;
    mkColumn "abertura" REAL false;
    mkColumn "alta" REAL false;
    mkColumn "baixa" REAL false;
    mkColumn "fechamento" REAL false;
    mkColumn "volume" INTEGER false;
    mkColumn "datetime_coleta" TEXT false ].

(** [PRIMARY KEY (ticker, data_pregao)]. *)
Definition CHAVE_PRIMARIA : list string := ["ticker"; "data_pregao"].

(** The columns the statement of line 165 inserts into, in its order, which
    is the order of the table. *)
Definition INSERT_COLUNAS : list string :=
  ["ticker"; "data_pregao"; "abertura"; "alta"; "baixa"; "fechamento";
   "volume"; "datetime_coleta"].

(** The columns of its [DO UPDATE SET] list. *)
Definition UPDATE_SET : list string :=
  ["abertura"; "alta"; "baixa"; "fechamento"; "volume"; "datetime_coleta"].

Definition mem_string (c : string) (l : list string) : bool :=
  existsb (String.eqb c) l.

(** The cells of a row under the key columns. *)
Fixpoint key_cells (cols : list ColumnDef) (row : SqlRow) : list value :=
  match cols, row with
  | c :: cols', v :: row' =>
      if mem_string (col_name c) CHAVE_PRIMARIA
      then v :: key_cells cols' row'
      else key_cells cols' row'
  | _, _ => []
  end.

Definition chave (row : SqlRow) : list value := key_cells TABELA row.

Definition same_key (a b : SqlRow) : bool :=
  if list_eq_dec value_eq_dec (chave a) (chave b) then true else false.

(** Some column declared [NOT NULL] would receive NULL. *)
Fixpoint null_violation (cols : list ColumnDef) (row : SqlRow) : option string :=
  match cols, row with
  | c :: cols', v :: row' =>
      if col_notnull c && is_null v then Some (col_name c)
      else null_violation cols' row'
  | _, _ => None
  end.

(** [DO UPDATE SET c = excluded.c] for the columns of the list: those cells
    come from the proposed row, the others stay. *)
Fixpoint do_update (cols : list ColumnDef) (old excluded : SqlRow) : SqlRow :=
  match cols, old, excluded with
  | c :: cols', o :: old', e :: excluded' =>
      (if mem_string (col_name c) UPDATE_SET then e else o)
        :: do_update cols' old' excluded'
  | _, _, _ => old
  end.

(** Insert, or update the row that holds the key already. *)
Fixpoint upsert (row : SqlRow) (tbl : list SqlRow) : list SqlRow :=
  match tbl with
  | [] => [row]
  | r :: tbl' =>
      if same_key r row then do_update TABELA r row :: tbl'
      else r :: upsert row tbl'
  end.

(** The errors of [sqlite3] the statements can meet; all are subclasses of
    [sqlite3.Error]. *)
Inductive SqliteError : Type :=
| ProgrammingError (msg : string)
| IntegrityError (msg : string)
| OperationalError (msg : string).

Definition sqlite_message (e : SqliteError) : string :=
  match e with
  | ProgrammingError m | IntegrityError m | OperationalError m => m
  end.

(** One execution of the statement of line 165 on a table, with the tuple
    [valores] bound to its eight placeholders by position.  A cell is stored
    as it is bound: the conversions SQLite makes towards the affinity of a
    column are left out of the model. *)
Definition execute_insert (valores : list value) (tbl : list SqlRow)
  : SqliteError + list SqlRow :=
  if negb (List.length valores =? List.length INSERT_COLUNAS)
  then inl (ProgrammingError "Incorrect number of bindings supplied.")
  else match null_violation TABELA valores with
       | Some c =>
           inl (IntegrityError
                  ("NOT NULL constraint failed: " ++ NOME_TABELA ++ "." ++ c))
       | None => inr (upsert valores tbl)
       end.

(** ** The connection *)

(** The handle [sqlite3.connect] returns; a run holds one connection. *)
Inductive Connection : Type := Conn.

(** [sqlite3.connect]: a fresh connection, with no transaction open. *)
Definition sqlite3_connect : M Connection :=
  fun w => (Ret Conn,
            mkWorld (w_log w) (w_tick w) (w_table w) None
                    (S (w_connects w)) (w_closes w)).

(** [CREATE TABLE IF NOT EXISTS]: a table that exists is left as it is. *)
Definition create_table_if_not_exists (conn : Connection) : M NoneType :=
  fun w => (Ret PyNone,
            mkWorld (w_log w) (w_tick w)
                    (match w_table w with Some t => Some t | None => Some [] end)
                    (w_txn w) (w_connects w) (w_closes w)).

(** What a statement sees: the working copy of the open transaction, or the
    committed table. *)
Definition visible (w : World) : option (list SqlRow) :=
  match w_txn w with
  | Some t => Some t
  | None => w_table w
  end.

(** [cursor.execute(query, valores)] for the statement of line 165.  The
    module opens a transaction before the statement when none is open; a
    statement that fails changes no row and leaves the transaction open.
    The errors are the ones the statement and the table decide: a missing
    table, a tuple of the wrong size, NULL in a [NOT NULL] column.  Faults of
    the backend itself (disk, locks) are outside the model. *)
Definition cursor_execute (conn : Connection) (valores : list value)
  : M (option SqliteError) :=
  fun w =>
    match visible w with
    | None =>
        (Ret (Some (OperationalError ("no such table: " ++ NOME_TABELA))), w)
    | Some tbl =>
        match execute_insert valores tbl with
        | inl e =>
            (Ret (Some e),
             mkWorld (w_log w) (w_tick w) (w_table w) (Some tbl)
                     (w_connects w) (w_closes w))
        | inr tbl' =>
            (Ret None,
             mkWorld (w_log w) (w_tick w) (w_table w) (Some tbl')
                     (w_connects w) (w_closes w))
        end
    end.

Definition conn_commit (conn : Connection) : M NoneType :=
  fun w => (Ret PyNone,
            mkWorld (w_log w) (w_tick w) (visible w) None
                    (w_connects w) (w_closes w)).

Definition conn_rollback (conn : Connection) : M NoneType :=
  fun w => (Ret PyNone,
            mkWorld (w_log w) (w_tick w) (w_table w) None
                    (w_connects w) (w_closes w)).

(** [conn.close()]: what was not committed is lost. *)
Definition conn_close (conn : Connection) : M NoneType :=
  fun w => (Ret PyNone,
            mkWorld (w_log w) (w_tick w) (w_table w) None
                    (w_connects w) (S (w_closes w))).

(** ** The pipeline *)

Definition ACOES_PARA_ACOMPANHAR : list string :=
  ["PETR4.SA"; "VALE3.SA"; "ITUB4.SA"; "BBDC4.SA";
   "ABEV3.SA"; "MGLU3.SA"; "WEGE3.SA"; "VLTA.CN"].

Fixpoint map_outcome {A B : Type} (f : A -> outcome B) (l : list A)
  : outcome (list B) :=
  match l with
  | [] => Ret []
  | a :: l' =>
      match f a with
      | Raise e => Raise e
      | Ret b =>
          match map_outcome f l' with
          | Raise e => Raise e
          | Ret bs => Ret (b :: bs)
          end
      end
  end.

Section Pipeline.

Variable env : Env.

(** Lines 31-71. *)
Definition dsa_cria_ou_conecta_banco : M (option Connection) :=
  match sqlite_fault env with
  | ConnectFails msg =>
      logging ERROR (ConnectFailed msg) ;;
      ret None
  | CreateFails msg =>
      conn <- sqlite3_connect ;;
      logging ERROR (ConnectFailed msg) ;;
      ret None
  | NoFault =>
      conn <- sqlite3_connect ;;
      create_table_if_not_exists conn ;;
      conn_commit conn ;;
      logging INFO SchemaVerified ;;
      ret (Some conn)
  end.

(** Lines 74-103.  Every exception of the provider is caught. *)
Definition dsa_extrai_dados_acao (ticker : string) : M (option DataFrame) :=
  logging INFO (ExtractStart ticker) ;;
  t <- next_tick ;;
  match yf_history env t ticker with
  | Frame dados =>
      if df_empty dados
      then logging WARNING (NoDataFound ticker) ;; ret None
      else ret (Some dados)
  | Raises msg =>
      logging ERROR (ExtractFailed ticker msg) ;;
      ret None
  end.

(** [pd.to_datetime(...).dt.date] on one cell: the date of the stamp, its
    time of day dropped; a missing stamp stays missing. *)
Definition to_date (v : value) : outcome value :=
  match v with
  | VNull => Ret VNull
  | VTimestamp t => Ret (VDate (ts_date t))
  | VDate d => Ret (VDate d)
  | _ =>
      match pd_to_datetime env v with
      | Some t => Ret (VDate (ts_date t))
      | None => Raise (ValueError "Unknown datetime string format")
      end
  end.

(** Line 141: [df['data_pregao']] is a column only when exactly one column
    carries the label; the converted cells replace that column. *)
Definition converte_data_pregao (df : DataFrame) : outcome DataFrame :=
  match columns_of "data_pregao" (df_data df) with
  | [] => Raise (KeyError "data_pregao")
  | [_] =>
      match map_outcome
              (fun col =>
                 if String.eqb "data_pregao" (fst col)
                 then match map_outcome to_date (snd col) with
                      | Raise e => Raise e
                      | Ret cells => Ret (fst col, cells)
                      end
                 else Ret col)
              (df_data df) with
      | Raise e => Raise e
      | Ret data => Ret (mkDataFrame (df_index_name df) (df_index df) data)
      end
  | _ => Raise (ValueError "to assemble mappings requires at least that [year, month, day] be specified")
  end.

(** Lines 106-144. *)
Definition dsa_limpa_e_transforma_dados (df_bruto : option DataFrame)
  (ticker : string) : M (option DataFrame) :=
  match df_bruto with
  | None => ret None
  | Some df_bruto =>
      if df_empty df_bruto then ret None
      else
        logging INFO (TransformStart ticker) ;;
        df_transformado <- lift (reset_index df_bruto) ;;
        let df_transformado :=
          set_column "ticker" (VText ticker) df_transformado in
        t <- next_tick ;;
        let df_transformado :=
          set_column "datetime_coleta" (VText (datetime_now env t))
            df_transformado in
        let df_transformado := rename_columns df_transformado in
        let df_final :=
          select_columns (colunas_existentes df_transformado)
            df_transformado in
        df_final <- lift (converte_data_pregao df_final) ;;
        ret (Some df_final)
  end.

(** The loop of lines 162-181: the statements run in row order and the
    first error ends the loop. *)
Fixpoint executa_linhas (conn : Connection) (rows : list (value * list value))
  : M (option SqliteError) :=
  match rows with
  | [] => ret None
  | r :: rows' =>
      e <- cursor_execute conn (snd r) ;;
      match e with
      | Some err => ret (Some err)
      | None => executa_linhas conn rows'
      end
  end.

(** [df['ticker'].iloc[0]]: the cells of the first row under the label. *)
Definition ticker_log (df : DataFrame) : outcome (list value) :=
  match columns_of "ticker" (df_data df), df_index df with
  | [], _ => Raise (KeyError "ticker")
  | _, [] => Raise (IndexError "single positional indexer is out-of-bounds")
  | cols, _ :: _ => Ret (map (fun col => nth 0 (snd col) VNull) cols)
  end.

(** Lines 147-198. *)
Definition dsa_carrega_dados (df : option DataFrame) (conn : Connection)
  : M NoneType :=
  match df with
  | None => logging WARNING NothingToLoad
  | Some df =>
      if df_empty df then logging WARNING NothingToLoad
      else
        e <- executa_linhas conn (iterrows df) ;;
        match e with
        | None =>
            conn_commit conn ;;
            t <- lift (ticker_log df) ;;
            logging INFO (LoadSucceeded t)
        | Some err =>
            logging ERROR (LoadFailed (sqlite_message err)) ;;
            conn_rollback conn
        end
  end.

(** The body of the loop of lines 215-228. *)
Definition processa_ticker (conn : Connection) (ticker : string) : M NoneType :=
  dados_brutos <- dsa_extrai_dados_acao ticker ;;
  dados_limpos <- dsa_limpa_e_transforma_dados dados_brutos ticker ;;
  match dados_limpos with
  | Some _ => dsa_carrega_dados dados_limpos conn
  | None => logging WARNING (Skipped ticker)
  end.

(** Lines 201-237, over a list of tickers. *)
Definition main_com (acoes : list string) : M NoneType :=
  logging INFO PipelineStart ;;
  conn <- dsa_cria_ou_conecta_banco ;;
  match conn with
  | None =>
      logging CRITICAL NoConnection
  | Some conn =>
      for_each (processa_ticker conn) acoes ;;
      conn_close conn ;;
      logging INFO ConnectionClosed ;;
      logging INFO PipelineDone
  end.

Definition main : M NoneType := main_com ACOES_PARA_ACOMPANHAR.

End Pipeline.

(** * Vocabulary of the properties *)

(** ** The table as a keyed list *)

(** The statement of line 165 accepts a tuple: eight values, none NULL in a
    column declared [NOT NULL]. *)
Definition aceita (valores : list value) : bool :=
  (List.length valores =? List.length INSERT_COLUNAS)
  && match null_violation TABELA valores with
     | None => true
     | Some _ => false
     end.



(** The table after the statements of a batch, in order. *)
Definition carga (lote : list (list value)) (tbl : list SqlRow) : list SqlRow :=
  fold_left (fun t r => upsert r t) lote tbl.


(** The rows of one instrument, and the rows of the others. *)
Definition do_ticker (t : string) (r : SqlRow) : bool :=
  value_eqb (hd VNull r) (VText t).

Definition linhas_de (t : string) (tbl : list SqlRow) : list SqlRow :=
  filter (do_ticker t) tbl.

Definition linhas_de_outros (t : string) (tbl : list SqlRow) : list SqlRow :=
  filter (fun r => negb (do_ticker t r)) tbl.

(** A row with both key cells present. *)
Definition chave_presente (r : SqlRow) : Prop :=
  exists t d resto, r = t :: d :: resto /\ t <> VNull /\ d <> VNull.

(** The stored rows all carry both key cells. *)
Definition tabela_com_chaves (w : World) : Prop :=
  match w_table w with
  | Some tbl => Forall chave_presente tbl
  | None => True
  end.

(** ** Worlds along a run *)

(** A world with another open transaction. *)
Definition com_txn (w : World) (txn : option (list SqlRow)) : World :=
  mkWorld (w_log w) (w_tick w) (w_table w) txn (w_connects w) (w_closes w).

(** A world with more records in its log. *)
Definition com_log (w : World) (novos : list LogRecord) : World :=
  mkWorld (w_log w ++ novos) (w_tick w) (w_table w) (w_txn w)
          (w_connects w) (w_closes w).

(** The world after the extractor logged its start and asked the provider. *)
Definition apos_extrair (ticker : string) (w : World) : World :=
  mkWorld (w_log w ++ [(INFO, ExtractStart ticker)]) (S (w_tick w))
          (w_table w) (w_txn w) (w_connects w) (w_closes w).

(** The world after a transformation that got as far as the clock. *)
Definition apos_transformar (ticker : string) (w : World) : World :=
  mkWorld (w_log w ++ [(INFO, TransformStart ticker)]) (S (w_tick w))
          (w_table w) (w_txn w) (w_connects w) (w_closes w).

(** The world after the schema manager connected and verified the table. *)
Definition mundo_conectado (w : World) : World :=
  mkWorld (w_log w ++ [(INFO, PipelineStart); (INFO, SchemaVerified)])
          (w_tick w)
          (Some (match w_table w with Some t => t | None => [] end))
          None (S (w_connects w)) (w_closes w).

(** The world after the connection is closed and the end is logged. *)
Definition mundo_encerrado (w : World) : World :=
  mkWorld (w_log w ++ [(INFO, ConnectionClosed); (INFO, PipelineDone)])
          (w_tick w) (w_table w) None (w_connects w) (S (w_closes w)).


(** The batch a frame gives the loader: the tuples of its rows. *)
Definition lote_de (df : DataFrame) : list (list value) :=
  map snd (iterrows df).

(** What one iteration may change: the log grows, the clock advances, no
    connection is opened or closed, no transaction is left open, and the
    committed table is the one before with a batch of the instrument
    applied to it. *)
Definition passo (ticker : string) (w w' : World) : Prop :=
  (exists novos, w_log w' = w_log w ++ novos)
  /\ w_connects w' = w_connects w
  /\ w_closes w' = w_closes w
  /\ w_txn w' = None
  /\ (w_table w' = w_table w
      \/ exists tbl lote,
           w_table w = Some tbl /\ w_table w' = Some (carga lote tbl)
           /\ Forall (fun r => aceita r = true) lote
           /\ Forall (fun r => hd VNull r = VText ticker) lote).

(** ** Frames the transformer meets *)

(** The frame of line 138, before the dates are converted: what the scalar
    assignments, the renaming and the selection make of the frame that
    [reset_index] returned. *)
Definition projeta (ticker : string) (coleta : string) (df : DataFrame)
  : DataFrame :=
  let df := set_column "ticker" (VText ticker) df in
  let df := set_column "datetime_coleta" (VText coleta) df in
  let df := rename_columns df in
  select_columns (colunas_existentes df) df.



(** The calendar date of an index label. *)
Definition data_de (v : value) : value :=
  match v with
  | VTimestamp t => VDate (ts_date t)
  | _ => VNull
  end.



Definition converte_coluna (env : Env) (col : string * list value)
  : outcome (string * list value) :=
  if String.eqb "data_pregao" (fst col)
  then match map_outcome (to_date env) (snd col) with
       | Raise e => Raise e
       | Ret cells => Ret (fst col, cells)
       end
  else Ret col.

Definition data_da_coluna (col : string * list value) : string * list value :=
  if String.eqb "data_pregao" (fst col)
  then (fst col, map data_de (snd col))
  else col.

(** What [reset_index] returns on a frame indexed by date. *)
Definition quadro_reindexado (df : DataFrame) : DataFrame :=
  mkDataFrame None (range_index (df_len df))
    (("Date", df_index df) :: df_data df).

(** The frame with the cells of its date column converted. *)
Definition converte_datas (df : DataFrame) : DataFrame :=
  mkDataFrame (df_index_name df) (df_index df)
    (map data_da_coluna (df_data df)).

(** The frame the transformer returns for a frame indexed by date. *)
Definition transformado (ticker coleta : string) (df : DataFrame) : DataFrame :=
  converte_datas (projeta ticker coleta (quadro_reindexado df)).


(** ** Outcomes of an instrument *)



(** ** Sample data *)

Definition dia (n : Z) : Date := mkDate 2024 3 n.

(** A frame of canonical records of one instrument, one per date cell. *)
Definition quadro_canonico (t : string) (datas : list value) (preco : Q)
  (coleta : string) : DataFrame :=
  let n := List.length datas in
  mkDataFrame None (range_index n)
    [ ("ticker", repeat (VText t) n);
      ("data_pregao", datas);
      ("abertura", repeat (VFloat preco) n);
      ("alta", repeat (VFloat preco) n);
      ("baixa", repeat (VFloat preco) n);
      ("fechamento", repeat (VFloat preco) n);
      ("volume", repeat (VInt 1000) n);
      ("datetime_coleta", repeat (VText coleta) n) ].

Definition cinco_dias : list value :=
  [VDate (dia 1); VDate (dia 2); VDate (dia 3); VDate (dia 4); VDate (dia 5)].

(** Five records, all acceptable. *)
Definition lote_bom : DataFrame :=
  quadro_canonico "AAA" cinco_dias (10 # 1) "2024-03-06 10:00:00".


(** A store that holds one committed row of another day at another price,
    with no transaction open. *)
Definition mundo_com_linha : World :=
  mkWorld [] 0
    (Some [[VText "AAA"; VDate (dia 1); VFloat (7 # 1); VFloat (7 # 1);
            VFloat (7 # 1); VFloat (7 # 1); VInt 5;
            VText "2024-03-05 10:00:00"]])
    None 1 0.

(** The stamp 2024-03-01T00:00:00 of the Sao Paulo exchange. *)
Definition carimbo_exemplo : Timestamp :=
  mkTimestamp (mkDate 2024 3 1) 0 0 0 0 (Some (-180)%Z).

(** One daily bar as the provider returns it. *)
Definition quadro_um_dia : DataFrame :=
  mkDataFrame (Some "Date") [VTimestamp carimbo_exemplo]
    [ ("Open", [VFloat (10 # 1)]); ("High", [VFloat (12 # 1)]);
      ("Low", [VFloat (9 # 1)]); ("Close", [VFloat (11 # 1)]);
      ("Volume", [VInt 1000]); ("Dividends", [VFloat 0]) ].


(** A frame with columns and no row. *)
Definition quadro_vazio : DataFrame :=
  mkDataFrame (Some "Date") [] [("Open", []); ("Close", [])].

(** A provider's frame whose index is not named [Date]. *)
Definition quadro_mal_indexado : DataFrame :=
  mkDataFrame (Some "Datetime") [VTimestamp carimbo_exemplo]
    [ ("Open", [VFloat (10 # 1)]); ("High", [VFloat (12 # 1)]);
      ("Low", [VFloat (9 # 1)]); ("Close", [VFloat (11 # 1)]);
      ("Volume", [VInt 1000]) ].

(** Five daily bars as the provider returns them. *)
Definition quadro_cinco_dias : DataFrame :=
  mkDataFrame (Some "Date")
    (map (fun n => VTimestamp (mkTimestamp (dia n) 0 0 0 0 (Some (-180)%Z)))
         [1; 2; 3; 4; 5]%Z)
    [ ("Open", repeat (VFloat (10 # 1)) 5); ("High", repeat (VFloat (12 # 1)) 5);
      ("Low", repeat (VFloat (9 # 1)) 5); ("Close", repeat (VFloat (11 # 1)) 5);
      ("Volume", repeat (VInt 1000) 5); ("Dividends", repeat (VFloat 0) 5);
      ("Stock Splits", repeat (VFloat 0) 5) ].

Definition relogio_fixo : nat -> string := fun _ => "2024-03-06 10:00:00".

(** A provider that answers every request with the same reply. *)
Definition ambiente_de (r : ProviderReply) : Env :=
  mkEnv (fun _ _ => r) relogio_fixo (fun _ => None) NoFault.

(** The provider of the end-to-end scenario: five valid rows for "AAA", and
    the given reply for every other instrument. *)
Definition cenario (relogio : nat -> string) (outros : ProviderReply) : Env :=
  mkEnv (fun _ t => if String.eqb t "AAA" then Frame quadro_cinco_dias
                    else outros)
        relogio (fun _ => None) NoFault.

(** A world with nothing logged and no database file yet. *)
Definition mundo_novo : World := mkWorld [] 0 None None 0 0.

(** ** Further vocabulary *)

(** The instruments whose extraction a log records, in the order of the
    records. *)
Definition extracoes (log : list LogRecord) : list string :=
  flat_map (fun r => match snd r with
                     | ExtractStart t => [t]
                     | _ => []
                     end) log.

(** An environment whose backend has the given fault and whose provider
    would answer every request with the bar of one day. *)
Definition ambiente_com_falha (f : ConnectFault) : Env :=
  mkEnv (fun _ _ => Frame quadro_um_dia) relogio_fixo (fun _ => None) f.

(** The frame of canonical records under other labels, cell for cell. *)
Definition lote_bom_sem_rotulos : DataFrame :=
  mkDataFrame None (df_index lote_bom)
    (map (fun col => ("c", snd col)) (df_data lote_bom)).

(** What a run may do to a table: keep every key, keep every row of an
    instrument outside the list, and lose no row. *)
Definition conserva (acoes : list string) (tbl : list SqlRow) (w : World) : Prop :=
  exists tbl',
    w_table w = Some tbl'
    /\ (forall k, In k (map chave tbl) -> In k (map chave tbl'))
    /\ List.length tbl <= List.length tbl'
    /\ (forall t, ~ In t acoes -> linhas_de t tbl' = linhas_de t tbl).




(** * Properties *)

(** ** Statements on the table *)

Lemma aceita_shape (r : list value) :
  aceita r = true ->
  exists t d o h l c v ca,
    r = [t; d; o; h; l; c; v; ca] /\ t <> VNull /\ d <> VNull.
Proof.
  unfold aceita. intros H. apply andb_prop in H. destruct H as [Hlen Hnull].
  apply Nat.eqb_eq in Hlen. simpl in Hlen.
  destruct r as [|t [|d [|o [|h [|l [|c [|v [|ca [|x r]]]]]]]]];
    simpl in Hlen; try discriminate.
  exists t, d, o, h, l, c, v, ca. split; [reflexivity|].
  simpl in Hnull.
  destruct t; simpl in Hnull; try discriminate;
    destruct d; simpl in Hnull; try discriminate;
    split; discriminate.
Qed.

Lemma aceita_chave_presente (r : list value) :
  aceita r = true -> chave_presente r.
Proof.
  intros H. destruct (aceita_shape r H) as (t & d & o & h & l & c & v & ca & E & Ht & Hd).
  exists t, d, [o; h; l; c; v; ca]. auto.
Qed.

Lemma execute_insert_aceita (r : list value) (tbl : list SqlRow) :
  aceita r = true -> execute_insert r tbl = inr (upsert r tbl).
Proof.
  unfold aceita, execute_insert. intros H.
  apply andb_prop in H. destruct H as [Hlen Hnull].
  rewrite Hlen. simpl negb. cbv iota.
  destruct (null_violation TABELA r); [discriminate | reflexivity].
Qed.

Lemma execute_insert_rejeita (r : list value) (tbl : list SqlRow) :
  aceita r = false -> exists e, execute_insert r tbl = inl e.
Proof.
  unfold aceita, execute_insert. intros H.
  destruct (List.length r =? List.length INSERT_COLUNAS);
    destruct (null_violation TABELA r); simpl negb; cbv iota;
    try discriminate; eauto.
Qed.

Lemma same_key_true (a b : SqlRow) : same_key a b = true <-> chave a = chave b.
Proof.
  unfold same_key. destruct (list_eq_dec value_eq_dec (chave a) (chave b));
    split; intros; congruence.
Qed.


Lemma upsert_cons (r x : SqlRow) (tbl : list SqlRow) :
  upsert r (x :: tbl) =
  if same_key x r then do_update TABELA x r :: tbl else x :: upsert r tbl.
Proof. reflexivity. Qed.






Lemma carga_cons (r : list value) (lote : list (list value)) (tbl : list SqlRow) :
  carga (r :: lote) tbl = carga lote (upsert r tbl).
Proof. reflexivity. Qed.











(** ** The loader *)

Lemma com_txn_id (w : World) : com_txn w (w_txn w) = w.
Proof. destruct w; reflexivity. Qed.

Lemma com_txn_com_txn (w : World) (a b : option (list SqlRow)) :
  com_txn (com_txn w a) b = com_txn w b.
Proof. reflexivity. Qed.

Lemma visible_com_txn (w : World) (tbl : list SqlRow) :
  visible (com_txn w (Some tbl)) = Some tbl.
Proof. reflexivity. Qed.

Lemma cursor_execute_aceita (conn : Connection) (r : list value) (w : World)
  (tbl : list SqlRow) :
  visible w = Some tbl -> aceita r = true ->
  cursor_execute conn r w = (Ret None, com_txn w (Some (upsert r tbl))).
Proof.
  intros Hv Ha. unfold cursor_execute. rewrite Hv.
  rewrite execute_insert_aceita by assumption. reflexivity.
Qed.

Lemma cursor_execute_rejeita (conn : Connection) (r : list value) (w : World)
  (tbl : list SqlRow) :
  visible w = Some tbl -> aceita r = false ->
  exists e, cursor_execute conn r w = (Ret (Some e), com_txn w (Some tbl)).
Proof.
  intros Hv Ha. unfold cursor_execute. rewrite Hv.
  destruct (execute_insert_rejeita r tbl Ha) as [e He]. rewrite He.
  exists e. reflexivity.
Qed.

(** The loop of the loader touches nothing but the open transaction.  It
    ends without error exactly when every tuple is accepted, and the
    transaction then holds the batch applied to what was visible. *)
Lemma executa_linhas_spec (conn : Connection) (rows : list (value * list value)) :
  forall w, exists e txn,
    executa_linhas conn rows w = (Ret e, com_txn w txn) /\
    match e with
    | None =>
        visible (com_txn w txn) = option_map (carga (map snd rows)) (visible w)
        /\ (rows = [] \/
            (visible w <> None /\ Forall (fun r => aceita r = true) (map snd rows)))
    | Some _ =>
        rows <> [] /\
        (visible w = None \/ forallb aceita (map snd rows) = false)
    end.
Proof.
  induction rows as [|r rows IH]; intros w.
  - exists None, (w_txn w). rewrite com_txn_id. cbn [executa_linhas ret map].
    split; [reflexivity|]. split; [|left; reflexivity].
    unfold carga. cbn [fold_left]. destruct (visible w); reflexivity.
  - cbn [executa_linhas]. unfold bind at 1.
    destruct (visible w) as [tbl|] eqn:Hv.
    + destruct (aceita (snd r)) eqn:Ha.
      * rewrite (cursor_execute_aceita conn _ _ Hv Ha).
        destruct (IH (com_txn w (Some (upsert (snd r) tbl)))) as (e & txn & He & Hspec).
        rewrite com_txn_com_txn in He, Hspec. rewrite visible_com_txn in Hspec.
        exists e, txn. split; [exact He|].
        destruct e as [err|].
        -- destruct Hspec as [Hne [Hnone|Hf]]; [discriminate|].
           split; [discriminate|]. right. cbn [map forallb]. rewrite Ha. exact Hf.
        -- destruct Hspec as [Hvis Hall]. split.
           ++ rewrite Hvis. reflexivity.
           ++ right. split; [discriminate|]. cbn [map]. constructor; [exact Ha|].
              destruct Hall as [->|[_ Hall]]; [constructor | exact Hall].
      * destruct (cursor_execute_rejeita conn _ _ Hv Ha) as [err Herr].
        rewrite Herr. exists (Some err), (Some tbl). cbn [ret].
        split; [reflexivity|]. split; [discriminate|].
        right. cbn [map forallb]. rewrite Ha. reflexivity.
    + unfold cursor_execute. rewrite Hv.
      exists (Some (OperationalError ("no such table: " ++ NOME_TABELA))), (w_txn w).
      rewrite com_txn_id. split; [reflexivity|]. split; [discriminate | left; reflexivity].
Qed.

Lemma df_empty_false (df : DataFrame) :
  df_empty df = false -> iterrows df <> [].
Proof.
  unfold df_empty, iterrows, df_len. destruct (df_index df); [discriminate|].
  intros _. cbn [List.length seq map]. discriminate.
Qed.

(** What one call of the loader does to the world, on a frame with rows.
    - Every tuple accepted: the batch is committed, and the call logs the
      success, or raises after the commit when the frame has no [ticker]
      column to name in the record.
    - Otherwise: one error record, and the transaction is rolled back. *)
Lemma dsa_carrega_dados_spec (df : DataFrame) (conn : Connection) (w : World) :
  df_empty df = false ->
  (exists tbl,
      visible w = Some tbl /\
      Forall (fun r => aceita r = true) (lote_de df) /\
      match ticker_log df with
      | Ret t =>
          dsa_carrega_dados (Some df) conn w =
          (Ret PyNone,
           mkWorld (w_log w ++ [(INFO, LoadSucceeded t)]) (w_tick w)
                   (Some (carga (lote_de df) tbl)) None
                   (w_connects w) (w_closes w))
      | Raise e =>
          dsa_carrega_dados (Some df) conn w =
          (Raise e,
           mkWorld (w_log w) (w_tick w)
                   (Some (carga (lote_de df) tbl)) None
                   (w_connects w) (w_closes w))
      end)
  \/
  ((visible w = None \/ forallb aceita (lote_de df) = false) /\
   exists msg,
     dsa_carrega_dados (Some df) conn w =
     (Ret PyNone,
      mkWorld (w_log w ++ [(ERROR, LoadFailed msg)]) (w_tick w)
              (w_table w) None (w_connects w) (w_closes w))).
Proof.
  intros Hne. unfold dsa_carrega_dados. rewrite Hne.
  destruct (executa_linhas_spec conn (iterrows df) w) as (e & txn & He & Hspec).
  unfold bind. rewrite He. destruct e as [err|].
  - right. destruct Hspec as [_ Hwhy]. split; [exact Hwhy|].
    exists (sqlite_message err). reflexivity.
  - left. destruct Hspec as [Hvis [Hnil|[Hsome Hall]]].
    + apply df_empty_false in Hne. contradiction.
    + destruct (visible w) as [tbl|] eqn:Hv; [|congruence].
      exists tbl. split; [reflexivity|]. split; [exact Hall|].
      cbn [option_map] in Hvis.
      unfold conn_commit, lift, logging. rewrite Hvis.
      destruct (ticker_log df); reflexivity.
Qed.


(** ** Claims on the loader *)








(** ** The transformer *)

Lemma dsa_limpa_e_transforma_dados_eq (env : Env) (df : DataFrame)
  (ticker : string) (w : World) :
  df_empty df = false ->
  dsa_limpa_e_transforma_dados env (Some df) ticker w =
  match reset_index df with
  | Raise e =>
      (Raise e,
       mkWorld (w_log w ++ [(INFO, TransformStart ticker)]) (w_tick w)
               (w_table w) (w_txn w) (w_connects w) (w_closes w))
  | Ret df1 =>
      match converte_data_pregao env
              (projeta ticker (datetime_now env (w_tick w)) df1) with
      | Raise e => (Raise e, apos_transformar ticker w)
      | Ret df_final => (Ret (Some df_final), apos_transformar ticker w)
      end
  end.
Proof.
  intros Hne. unfold dsa_limpa_e_transforma_dados. rewrite Hne.
  unfold bind, logging, lift, next_tick, ret, projeta, apos_transformar.
  cbn [w_log w_tick w_table w_txn w_connects w_closes].
  destruct (reset_index df); [|reflexivity].
  destruct (converte_data_pregao env _); reflexivity.
Qed.

Lemma has_column_In (c : string) (df : DataFrame) :
  has_column c df = true <-> In c (df_columns df).
Proof.
  unfold has_column. rewrite existsb_exists. split.
  - intros (x & Hx & E). apply String.eqb_eq in E. subst. assumption.
  - intros H. exists c. split; [assumption | apply String.eqb_refl].
Qed.

Lemma has_column_false (c : string) (df : DataFrame) :
  has_column c df = false <-> ~ In c (df_columns df).
Proof.
  rewrite <- has_column_In. destruct (has_column c df); split; intros H;
    congruence.
Qed.

Lemma columns_of_In (c : string) (data : list (string * list value))
  (col : string * list value) :
  In col (columns_of c data) <-> In col data /\ fst col = c.
Proof.
  unfold columns_of. rewrite filter_In. rewrite String.eqb_eq.
  split; intros [H E]; split; congruence.
Qed.

Lemma columns_of_nil (c : string) (data : list (string * list value)) :
  ~ In c (map fst data) -> columns_of c data = [].
Proof.
  intros H. destruct (columns_of c data) as [|col l] eqn:E; [reflexivity|].
  exfalso. apply H. assert (Hin : In col (columns_of c data))
    by (rewrite E; left; reflexivity).
  apply columns_of_In in Hin. destruct Hin as [Hin <-]. apply in_map. assumption.
Qed.

(** *** Scalar assignment *)

Lemma set_column_columns (c : string) (v : value) (df : DataFrame) :
  df_columns (set_column c v df) =
  if has_column c df then df_columns df else df_columns df ++ [c].
Proof.
  unfold set_column, df_columns. destruct (has_column c df); cbn [df_data].
  - rewrite map_map. apply map_ext. intros col.
    destruct (String.eqb c (fst col)); reflexivity.
  - rewrite map_app. reflexivity.
Qed.

Lemma set_column_has (c : string) (v : value) (df : DataFrame) :
  has_column c (set_column c v df) = true.
Proof.
  apply has_column_In. rewrite set_column_columns.
  destruct (has_column c df) eqn:E.
  - apply has_column_In. assumption.
  - apply in_or_app. right. left. reflexivity.
Qed.

Lemma set_column_has_other (c d : string) (v : value) (df : DataFrame) :
  has_column d df = true -> has_column d (set_column c v df) = true.
Proof.
  rewrite !has_column_In, set_column_columns. intros H.
  destruct (has_column c df); [assumption | apply in_or_app; left; assumption].
Qed.

(** A column of the label assigned holds the scalar in every row. *)
Lemma set_column_cells (c : string) (v : value) (df : DataFrame)
  (col : string * list value) :
  In col (df_data (set_column c v df)) -> fst col = c ->
  snd col = repeat v (df_len df).
Proof.
  unfold set_column. destruct (has_column c df) eqn:E; cbn [df_data]; intros Hin Hc.
  - apply in_map_iff in Hin. destruct Hin as (col0 & Hcol & _).
    destruct (String.eqb c (fst col0)) eqn:Ec; subst col; [reflexivity|].
    apply String.eqb_neq in Ec. congruence.
  - apply in_app_or in Hin. destruct Hin as [Hin|[<-|[]]]; [|reflexivity].
    exfalso. apply has_column_false in E. apply E. subst c.
    unfold df_columns. apply in_map. assumption.
Qed.

(** A column of another label is a column of the frame assigned to. *)
Lemma set_column_other (c : string) (v : value) (df : DataFrame)
  (col : string * list value) :
  fst col <> c ->
  (In col (df_data (set_column c v df)) <-> In col (df_data df)).
Proof.
  intros Hc. unfold set_column. destruct (has_column c df); cbn [df_data].
  - rewrite in_map_iff. split.
    + intros (col0 & Hcol & Hin).
      destruct (String.eqb c (fst col0)) eqn:Ec; subst col.
      * apply String.eqb_eq in Ec. cbn [fst] in Hc. congruence.
      * assumption.
    + intros Hin. exists col. split; [|assumption].
      destruct (String.eqb c (fst col)) eqn:Ec; [|reflexivity].
      apply String.eqb_eq in Ec. congruence.
  - rewrite in_app_iff. split; [|tauto].
    intros [H|[<-|[]]]; [assumption|]. cbn [fst] in Hc. congruence.
Qed.

(** *** Renaming *)

Lemma rename_label_ticker (c : string) :
  rename_label c = "ticker" -> c = "ticker".
Proof.
  unfold rename_label.
  repeat match goal with
         | |- context [String.eqb c ?s] => destruct (String.eqb c s)
         end; intros H; try discriminate; assumption.
Qed.

Lemma rename_label_data_pregao (c : string) :
  rename_label c = "data_pregao" -> c = "Date" \/ c = "data_pregao".
Proof.
  unfold rename_label. destruct (String.eqb c "Date") eqn:E.
  - apply String.eqb_eq in E. auto.
  - repeat match goal with
           | |- context [String.eqb c ?s] => destruct (String.eqb c s)
           end; intros H; try discriminate; auto.
Qed.

Lemma rename_label_fixed (c : string) :
  In c colunas_desejadas -> rename_label c = c.
Proof.
  cbn [In colunas_desejadas]. intros H.
  repeat (destruct H as [<-|H]; [reflexivity|]). destruct H.
Qed.

(** *** The instrument column *)

Lemma rename_columns_In (df : DataFrame) (col : string * list value) :
  In col (df_data (rename_columns df)) ->
  exists col0, In col0 (df_data df)
               /\ fst col = rename_label (fst col0) /\ snd col = snd col0.
Proof.
  unfold rename_columns. cbn [df_data]. intros H. apply in_map_iff in H.
  destruct H as (col0 & <- & Hin). exists col0. auto.
Qed.

Lemma rename_columns_has (c : string) (df : DataFrame) :
  In c colunas_desejadas -> has_column c df = true ->
  has_column c (rename_columns df) = true.
Proof.
  intros Hc. rewrite !has_column_In. unfold rename_columns, df_columns.
  cbn [df_data]. rewrite map_map. cbn [fst]. intros H.
  apply in_map_iff in H. destruct H as (col0 & E & Hin).
  apply in_map_iff. exists col0. split; [|assumption].
  rewrite E. apply rename_label_fixed. assumption.
Qed.

(** The frame of line 138 starts with a [ticker] column that holds the
    instrument in every row, and keeps the index of the frame it was made
    from. *)
Lemma projeta_ticker (ticker coleta : string) (df : DataFrame) :
  exists rest,
    df_data (projeta ticker coleta df)
    = ("ticker", repeat (VText ticker) (df_len df)) :: rest
    /\ df_index (projeta ticker coleta df) = df_index df.
Proof.
  unfold projeta.
  set (df2 := set_column "ticker" (VText ticker) df).
  set (df3 := set_column "datetime_coleta" (VText coleta) df2).
  set (df4 := rename_columns df3).
  assert (Hidx : df_index df4 = df_index df).
  { subst df4 df3 df2. unfold rename_columns, set_column. cbn [df_index].
    repeat match goal with
           | |- context [if ?b then _ else _] => destruct b
           end; reflexivity. }
  assert (Hhas : has_column "ticker" df4 = true).
  { apply rename_columns_has; [left; reflexivity|].
    apply set_column_has_other. apply set_column_has. }
  assert (Hcells : forall col, In col (df_data df4) -> fst col = "ticker" ->
                               col = ("ticker", repeat (VText ticker) (df_len df))).
  { intros col Hin Hc. apply rename_columns_In in Hin.
    destruct Hin as (col0 & Hin & Hl & Hs).
    rewrite Hc in Hl. symmetry in Hl. apply rename_label_ticker in Hl.
    apply set_column_other in Hin; [|rewrite Hl; discriminate].
    pose proof (@set_column_cells "ticker" (VText ticker) df col0 Hin Hl) as Hv.
    destruct col as [l cells]. cbn [fst snd] in *. congruence. }
  unfold select_columns, colunas_existentes, colunas_desejadas.
  cbn [filter df_data df_index]. rewrite Hhas. cbn [flat_map].
  destruct (columns_of "ticker" (df_data df4)) as [|col cols] eqn:E.
  - exfalso. apply has_column_In in Hhas. unfold df_columns in Hhas.
    apply in_map_iff in Hhas. destruct Hhas as (col & Hc & Hin).
    assert (H : In col (columns_of "ticker" (df_data df4)))
      by (apply columns_of_In; auto).
    rewrite E in H. destruct H.
  - assert (H : In col (columns_of "ticker" (df_data df4)))
      by (rewrite E; left; reflexivity).
    apply columns_of_In in H. destruct H as [Hin Hc].
    rewrite (Hcells col Hin Hc). cbn [app]. eexists. split; [reflexivity|].
    exact Hidx.
Qed.

(** The conversion of the dates keeps the index, the labels and every
    column that is not the date column. *)
Lemma map_outcome_head (f : string * list value -> outcome (string * list value))
  (col : string * list value) (data data' : list (string * list value)) :
  f col = Ret col ->
  map_outcome f (col :: data) = Ret data' ->
  exists rest, data' = col :: rest.
Proof.
  intros Hf. cbn [map_outcome]. rewrite Hf.
  destruct (map_outcome f data); intros H; [|discriminate].
  injection H as <-. eauto.
Qed.

Lemma converte_data_pregao_ticker (env : Env) (df df' : DataFrame)
  (cells : list value) (rest : list (string * list value)) :
  converte_data_pregao env df = Ret df' ->
  df_data df = ("ticker", cells) :: rest ->
  df_index df' = df_index df
  /\ exists rest', df_data df' = ("ticker", cells) :: rest'.
Proof.
  unfold converte_data_pregao. intros H Hd.
  destruct (columns_of "data_pregao" (df_data df)) as [|c0 [|c1 cs]];
    try discriminate.
  match type of H with
  | match ?m with _ => _ end = _ => destruct m as [data'|] eqn:Hm
  end; [|discriminate].
  injection H as <-. cbn [df_index df_data]. split; [reflexivity|].
  rewrite Hd in Hm. apply map_outcome_head in Hm; [exact Hm | reflexivity].
Qed.

Lemma range_index_length (n : nat) : List.length (range_index n) = n.
Proof. unfold range_index. rewrite length_map, length_seq. reflexivity. Qed.

(** Whatever the provider's frame, a frame the transformer returns has the
    rows of the provider's frame, and its first column holds the instrument
    in every row. *)
Lemma transforma_ticker (env : Env) (df df_final : DataFrame)
  (ticker : string) (w w' : World) :
  dsa_limpa_e_transforma_dados env (Some df) ticker w = (Ret (Some df_final), w') ->
  df_empty df = false
  /\ w' = apos_transformar ticker w
  /\ df_len df_final = df_len df
  /\ exists rest,
      df_data df_final = ("ticker", repeat (VText ticker) (df_len df)) :: rest.
Proof.
  intros H.
  destruct (df_empty df) eqn:Hne.
  { unfold dsa_limpa_e_transforma_dados in H. rewrite Hne in H. discriminate. }
  rewrite dsa_limpa_e_transforma_dados_eq in H by assumption.
  unfold reset_index in H.
  destruct (has_column (reset_index_label df) df); [discriminate|].
  match type of H with
  | match ?m with _ => _ end = _ => destruct m as [d|] eqn:Hc
  end; [|discriminate].
  injection H as <- <-. split; [reflexivity|]. split; [reflexivity|].
  match type of Hc with
  | converte_data_pregao _ (projeta ?t ?c ?d1) = _ =>
      destruct (projeta_ticker t c d1) as (rest & Hd & Hi)
  end.
  destruct (converte_data_pregao_ticker _ _ Hc Hd) as (Hi' & rest' & Hd').
  split.
  - unfold df_len. rewrite Hi', Hi. cbn [df_index]. apply range_index_length.
  - exists rest'. rewrite Hd'. unfold df_len at 1. cbn [df_index].
    rewrite range_index_length. reflexivity.
Qed.

Lemma nth_repeat_lt (A : Type) (v d : A) (n i : nat) :
  i < n -> nth i (repeat v n) d = v.
Proof.
  revert i. induction n as [|n IH]; intros i Hi; [lia|].
  destruct i; [reflexivity|]. cbn [repeat nth]. apply IH. lia.
Qed.

(** Every tuple of the transformer's frame starts with the instrument. *)
Lemma transforma_lote (env : Env) (df df_final : DataFrame)
  (ticker : string) (w w' : World) :
  dsa_limpa_e_transforma_dados env (Some df) ticker w = (Ret (Some df_final), w') ->
  df_empty df_final = false
  /\ Forall (fun r => hd VNull r = VText ticker) (lote_de df_final).
Proof.
  intros H. destruct (transforma_ticker _ _ _ _ H) as (Hne & _ & Hlen & rest & Hd).
  split.
  - unfold df_empty. rewrite Hd. unfold df_len in Hlen.
    unfold df_empty in Hne. destruct (df_index df) as [|x xs]; [discriminate|].
    destruct (df_index df_final); [discriminate | reflexivity].
  - unfold lote_de, iterrows. rewrite map_map. cbn [snd].
    apply Forall_forall. intros r Hr. apply in_map_iff in Hr.
    destruct Hr as (i & <- & Hi). apply in_seq in Hi. rewrite Hd.
    cbn [map hd snd]. apply nth_repeat_lt. lia.
Qed.

(** ** One instrument at a time *)

(** A stored row that shares the key of an accepted tuple starts with the
    same instrument cell, and keeps it when the statement updates it. *)
Lemma mesma_chave_mesmo_ticker (x r : SqlRow) :
  aceita r = true -> chave x = chave r ->
  hd VNull x = hd VNull r /\ hd VNull (do_update TABELA x r) = hd VNull r.
Proof.
  intros Hr Hk.
  destruct (aceita_shape r Hr) as (t & d & o & h & l & c & v & ca & -> & _).
  unfold chave in Hk.
  destruct x as [|a [|b x]]; cbn in Hk; try discriminate.
  injection Hk as -> ->. split; reflexivity.
Qed.

Lemma upsert_outros (t : string) (r : SqlRow) (tbl : list SqlRow) :
  aceita r = true -> hd VNull r = VText t ->
  linhas_de_outros t (upsert r tbl) = linhas_de_outros t tbl.
Proof.
  intros Hr Ht.
  assert (Hdo : forall x, hd VNull x = VText t -> do_ticker t x = true).
  { intros x Hx. unfold do_ticker, value_eqb. rewrite Hx.
    destruct (value_eq_dec (VText t) (VText t)); congruence. }
  unfold linhas_de_outros. induction tbl as [|x tbl IH].
  - cbn [upsert filter]. rewrite (Hdo r Ht). reflexivity.
  - rewrite upsert_cons. destruct (same_key x r) eqn:K.
    + apply same_key_true in K.
      destruct (@mesma_chave_mesmo_ticker x r Hr K) as [Hx Hu].
      cbn [filter]. rewrite (Hdo x), (Hdo (do_update TABELA x r)) by congruence.
      reflexivity.
    + cbn [filter]. rewrite IH. reflexivity.
Qed.

(** The statements of a batch of one instrument leave the rows of every
    other instrument as they are, in the order they had. *)
Lemma carga_outros (t : string) (lote : list (list value)) :
  Forall (fun r => aceita r = true) lote ->
  Forall (fun r => hd VNull r = VText t) lote ->
  forall tbl, linhas_de_outros t (carga lote tbl) = linhas_de_outros t tbl.
Proof.
  induction 1 as [|r lote Hr Hl IH]; intros Ht tbl.
  - reflexivity.
  - inversion Ht as [|? ? Hrt Hlt]; subst. rewrite carga_cons, IH by assumption.
    apply upsert_outros; assumption.
Qed.

Lemma upsert_chave_presente (r : SqlRow) (tbl : list SqlRow) :
  aceita r = true -> Forall chave_presente tbl ->
  Forall chave_presente (upsert r tbl).
Proof.
  intros Hr. induction 1 as [|x tbl Hx Htbl IH].
  - constructor; [apply aceita_chave_presente; assumption | constructor].
  - rewrite upsert_cons. destruct (same_key x r).
    + constructor; [|assumption].
      destruct (aceita_shape r Hr) as (t & d & o & h & l & c & v & ca & -> & _).
      destruct Hx as (t0 & d0 & resto & -> & Ht0 & Hd0).
      exists t0, d0. eexists. split; [reflexivity | auto].
    + constructor; assumption.
Qed.

Lemma carga_chave_presente (lote : list (list value)) :
  Forall (fun r => aceita r = true) lote ->
  forall tbl, Forall chave_presente tbl -> Forall chave_presente (carga lote tbl).
Proof.
  induction 1 as [|r lote Hr Hl IH]; intros tbl Ht.
  - assumption.
  - rewrite carga_cons. apply IH. apply upsert_chave_presente; assumption.
Qed.

Lemma dsa_extrai_dados_acao_eq (env : Env) (ticker : string) (w : World) :
  dsa_extrai_dados_acao env ticker w =
  match yf_history env (w_tick w) ticker with
  | Raises msg =>
      (Ret None, com_log (apos_extrair ticker w) [(ERROR, ExtractFailed ticker msg)])
  | Frame dados =>
      if df_empty dados
      then (Ret None, com_log (apos_extrair ticker w) [(WARNING, NoDataFound ticker)])
      else (Ret (Some dados), apos_extrair ticker w)
  end.
Proof.
  unfold dsa_extrai_dados_acao, bind, logging, next_tick, ret.
  cbn [w_log w_tick w_table w_txn w_connects w_closes].
  destruct (yf_history env (w_tick w) ticker) as [msg|dados]; [reflexivity|].
  destruct (df_empty dados); reflexivity.
Qed.

(** One iteration of the loop, by what the provider answers. *)
Lemma processa_ticker_eq (env : Env) (conn : Connection) (ticker : string)
  (w : World) :
  processa_ticker env conn ticker w =
  match yf_history env (w_tick w) ticker with
  | Raises msg =>
      (Ret PyNone,
       com_log (apos_extrair ticker w)
         [(ERROR, ExtractFailed ticker msg); (WARNING, Skipped ticker)])
  | Frame dados =>
      if df_empty dados
      then (Ret PyNone,
            com_log (apos_extrair ticker w)
              [(WARNING, NoDataFound ticker); (WARNING, Skipped ticker)])
      else
        match dsa_limpa_e_transforma_dados env (Some dados) ticker
                (apos_extrair ticker w) with
        | (Raise e, w2) => (Raise e, w2)
        | (Ret None, w2) => logging WARNING (Skipped ticker) w2
        | (Ret (Some df), w2) => dsa_carrega_dados (Some df) conn w2
        end
  end.
Proof.
  unfold processa_ticker. unfold bind at 1. rewrite dsa_extrai_dados_acao_eq.
  destruct (yf_history env (w_tick w) ticker) as [msg|dados].
  - unfold bind, dsa_limpa_e_transforma_dados, ret, logging, com_log.
    cbn [w_log w_tick w_table w_txn w_connects w_closes apos_extrair].
    rewrite <- app_assoc. reflexivity.
  - destruct (df_empty dados) eqn:Hne.
    + unfold bind, dsa_limpa_e_transforma_dados, ret, logging, com_log.
      cbn [w_log w_tick w_table w_txn w_connects w_closes apos_extrair].
      rewrite <- app_assoc. reflexivity.
    + unfold bind at 1.
      destruct (dsa_limpa_e_transforma_dados env (Some dados) ticker
                  (apos_extrair ticker w)) as [[[df|]|e] w2]; reflexivity.
Qed.

Lemma processa_ticker_passo (env : Env) (conn : Connection) (ticker : string)
  (w : World) :
  w_txn w = None ->
  passo ticker w (snd (processa_ticker env conn ticker w)).
Proof.
  intros Htxn. rewrite processa_ticker_eq.
  assert (Hskip : forall novos,
             passo ticker w (com_log (apos_extrair ticker w) novos)).
  { intros novos. unfold passo, com_log, apos_extrair.
    cbn [w_log w_tick w_table w_txn w_connects w_closes].
    split; [rewrite <- app_assoc; eauto|]. auto. }
  destruct (yf_history env (w_tick w) ticker) as [msg|dados]; [apply Hskip|].
  destruct (df_empty dados) eqn:Hne; [apply Hskip|].
  destruct (dsa_limpa_e_transforma_dados env (Some dados) ticker
              (apos_extrair ticker w)) as [[[df|]|e] w2] eqn:Htr.
  - destruct (transforma_ticker _ _ _ _ Htr) as (_ & -> & _).
    destruct (transforma_lote _ _ _ _ Htr) as (Hdf & Hlote).
    destruct (dsa_carrega_dados_spec df conn
                (apos_transformar ticker (apos_extrair ticker w)) Hdf)
      as [(tbl & Hv & Hall & Hrun) | (_ & msg & Hrun)].
    + assert (Htbl : w_table w = Some tbl).
      { unfold visible in Hv. cbn in Hv. rewrite Htxn in Hv. exact Hv. }
      destruct (ticker_log df); rewrite Hrun; unfold passo;
        cbn [snd w_log w_tick w_table w_txn w_connects w_closes
             apos_transformar apos_extrair];
        (split; [rewrite <- ?app_assoc; eauto|]);
        repeat (split; [reflexivity|]); right; exists tbl, (lote_de df); auto.
    + rewrite Hrun. unfold passo.
      cbn [snd w_log w_tick w_table w_txn w_connects w_closes
           apos_transformar apos_extrair].
      split; [rewrite <- !app_assoc; eauto|]. auto.
  - unfold dsa_limpa_e_transforma_dados in Htr. rewrite Hne in Htr.
    unfold bind, logging, lift, next_tick, ret in Htr.
    cbn [w_log w_tick w_table w_txn w_connects w_closes] in Htr.
    destruct (reset_index dados); [|discriminate].
    match type of Htr with
    | context [converte_data_pregao ?e ?d] =>
        destruct (converte_data_pregao e d); discriminate
    end.
  - cbn [snd]. rewrite dsa_limpa_e_transforma_dados_eq in Htr by assumption.
    destruct (reset_index dados).
    + match type of Htr with
      | context [converte_data_pregao ?e ?d] =>
          destruct (converte_data_pregao e d); [discriminate|]
      end.
      injection Htr as _ <-. unfold passo, apos_transformar, apos_extrair.
      cbn [w_log w_tick w_table w_txn w_connects w_closes].
      split; [rewrite <- app_assoc; eauto|]. auto.
    + injection Htr as _ <-. unfold passo, apos_extrair.
      cbn [w_log w_tick w_table w_txn w_connects w_closes].
      split; [rewrite <- app_assoc; eauto|]. auto.
Qed.

(** ** Frames indexed by date *)

Lemma set_column_In_columns (c l : string) (v : value) (df : DataFrame) :
  In l (df_columns (set_column c v df)) -> l = c \/ In l (df_columns df).
Proof.
  rewrite set_column_columns. destruct (has_column c df); [auto|].
  intros H. apply in_app_or in H. destruct H as [H|[<-|[]]]; auto.
Qed.


Lemma columns_of_columns_of (c d : string) (data : list (string * list value)) :
  columns_of d (columns_of c data) =
  if String.eqb c d then columns_of d data else [].
Proof.
  unfold columns_of. induction data as [|col data IH]; cbn [filter].
  - destruct (String.eqb c d); reflexivity.
  - destruct (String.eqb c (fst col)) eqn:Ec; cbn [filter]; rewrite IH.
    + apply String.eqb_eq in Ec. subst c.
      destruct (String.eqb (fst col) d) eqn:Ed.
      * apply String.eqb_eq in Ed. subst d. rewrite String.eqb_refl. reflexivity.
      * rewrite String.eqb_sym, Ed. reflexivity.
    + destruct (String.eqb c d) eqn:Ed; [|reflexivity].
      apply String.eqb_eq in Ed. subst d. rewrite Ec. reflexivity.
Qed.

Lemma columns_of_app (d : string) (a b : list (string * list value)) :
  columns_of d (a ++ b) = columns_of d a ++ columns_of d b.
Proof. unfold columns_of. apply filter_app. Qed.

(** Selecting by distinct labels keeps each labelled group whole. *)
Lemma columns_of_select (d : string) (data : list (string * list value))
  (labels : list string) :
  NoDup labels ->
  columns_of d (flat_map (fun c => columns_of c data) labels) =
  if in_dec string_dec d labels then columns_of d data else [].
Proof.
  induction 1 as [|c labels Hc Hn IH].
  - reflexivity.
  - cbn [flat_map]. rewrite columns_of_app, columns_of_columns_of, IH.
    destruct (String.eqb c d) eqn:E.
    + apply String.eqb_eq in E. subst d.
      destruct (in_dec string_dec c labels); [contradiction|].
      destruct (in_dec string_dec c (c :: labels)) as [i|n'];
        [apply app_nil_r | exfalso; apply n'; left; reflexivity].
    + apply String.eqb_neq in E. cbn [app].
      destruct (in_dec string_dec d labels) as [i|n];
        destruct (in_dec string_dec d (c :: labels)) as [i'|n'];
        try reflexivity.
      * exfalso. apply n'. right. assumption.
      * exfalso. destruct i' as [E'|i']; [congruence | contradiction].
Qed.

Lemma colunas_existentes_NoDup (df : DataFrame) : NoDup (colunas_existentes df).
Proof.
  unfold colunas_existentes. apply NoDup_filter. unfold colunas_desejadas.
  repeat (constructor; [cbn [In]; intros H;
                        repeat (destruct H as [H|H]; [discriminate|]);
                        destruct H|]).
  constructor.
Qed.

Lemma colunas_existentes_In (c : string) (df : DataFrame) :
  In c (colunas_existentes df) <-> In c colunas_desejadas /\ has_column c df = true.
Proof. unfold colunas_existentes. apply filter_In. Qed.

(** The columns of a selection come from the frame, under wanted labels. *)
Lemma select_columns_In (df : DataFrame) (col : string * list value) :
  In col (df_data (select_columns (colunas_existentes df) df)) ->
  In col (df_data df) /\ In (fst col) (colunas_existentes df).
Proof.
  unfold select_columns. cbn [df_data]. intros H. apply in_flat_map in H.
  destruct H as (c & Hc & Hin). apply columns_of_In in Hin.
  destruct Hin as [Hin <-]. tauto.
Qed.

(** *** Conversion of the date column *)







(** *** The transformer on a frame indexed by date *)



(** The labels of the frame before the selection come from the provider's
    labels, renamed, and from the two columns the transformer adds. *)
Lemma projeta_labels (ticker coleta : string) (df : DataFrame)
  (col : string * list value) :
  In col (df_data (projeta ticker coleta df)) ->
  In (fst col) colunas_desejadas
  /\ exists l, fst col = rename_label l
               /\ (l = "ticker" \/ l = "datetime_coleta" \/ In l (df_columns df)).
Proof.
  unfold projeta. intros H. apply select_columns_In in H.
  destruct H as [Hin Hex]. apply colunas_existentes_In in Hex.
  split; [tauto|]. apply rename_columns_In in Hin.
  destruct Hin as (col0 & Hin & Hl & _). exists (fst col0). split; [assumption|].
  assert (H0 : In (fst col0)
                 (df_columns (set_column "datetime_coleta" (VText coleta)
                                (set_column "ticker" (VText ticker) df))))
    by (unfold df_columns; apply in_map; assumption).
  apply set_column_In_columns in H0. destruct H0 as [H0|H0]; [auto|].
  apply set_column_In_columns in H0. tauto.
Qed.






(** ** Claims on the transformer *)






(** ** Claims on the extractor *)

(** C5, as stated, fails: the value returned does not tell "no data" from
    "error".  The extractor returns [None] to a provider that answers with
    no observation and to a provider that raises, so no test of the value
    separates the two. *)
Lemma extrator_nao_distingue :
  ~ (exists sem_dados : outcome (option DataFrame) -> bool,
        sem_dados (fst (dsa_extrai_dados_acao (ambiente_de (Frame quadro_vazio))
                          "AAA" mundo_novo)) = true
        /\ sem_dados (fst (dsa_extrai_dados_acao (ambiente_de (Raises "timeout"))
                             "AAA" mundo_novo)) = false).
Proof.
  intros [sem_dados [H1 H2]].
  change (fst (dsa_extrai_dados_acao (ambiente_de (Frame quadro_vazio))
                 "AAA" mundo_novo))
    with (@Ret (option DataFrame) None) in H1.
  change (fst (dsa_extrai_dados_acao (ambiente_de (Raises "timeout"))
                 "AAA" mundo_novo))
    with (@Ret (option DataFrame) None) in H2.
  congruence.
Qed.

(** C5, amended: the extractor returns [None] both when the provider answers
    with no observation and when it raises, and returns the frame
    otherwise; the two unsuccessful outcomes differ in the log only, a
    warning that no data was found against an error that carries the
    provider's message. *)
Theorem extrator_desfechos (env : Env) (ticker : string) (w : World) :
  let r := dsa_extrai_dados_acao env ticker w in
  match yf_history env (w_tick w) ticker with
  | Raises msg =>
      fst r = Ret None
      /\ w_log (snd r)
         = w_log w ++ [(INFO, ExtractStart ticker);
                       (ERROR, ExtractFailed ticker msg)]
  | Frame dados =>
      if df_empty dados
      then fst r = Ret None
           /\ w_log (snd r)
              = w_log w ++ [(INFO, ExtractStart ticker);
                            (WARNING, NoDataFound ticker)]
      else fst r = Ret (Some dados)
           /\ w_log (snd r) = w_log w ++ [(INFO, ExtractStart ticker)]
  end.
Proof.
  cbv zeta. rewrite dsa_extrai_dados_acao_eq.
  destruct (yf_history env (w_tick w) ticker) as [msg|dados].
  - cbn [fst snd com_log apos_extrair w_log]. rewrite <- app_assoc.
    split; reflexivity.
  - destruct (df_empty dados).
    + cbn [fst snd com_log apos_extrair w_log]. rewrite <- app_assoc.
      split; reflexivity.
    + split; reflexivity.
Qed.

(** ** The loop and the run *)

Lemma for_each_cons (A : Type) (body : A -> M NoneType) (a : A) (l : list A)
  (w : World) :
  for_each body (a :: l) w =
  match body a w with
  | (Ret _, w1) => for_each body l w1
  | (Raise e, w1) => (Raise e, w1)
  end.
Proof. reflexivity. Qed.


(** A property of worlds that every iteration keeps is kept by the loop,
    however it ends. *)
Lemma for_each_inv (env : Env) (conn : Connection) (P : World -> Prop) :
  (forall t w w', P w -> passo t w w' -> P w') ->
  forall l w,
    w_txn w = None -> P w ->
    w_txn (snd (for_each (processa_ticker env conn) l w)) = None
    /\ P (snd (for_each (processa_ticker env conn) l w)).
Proof.
  intros Hstep. induction l as [|t l IH]; intros w Htxn HP.
  - split; assumption.
  - rewrite for_each_cons.
    pose proof (@processa_ticker_passo env conn t w Htxn) as Hp.
    destruct (processa_ticker env conn t w) as [[r|e] w1]; cbn [snd] in Hp.
    + apply IH; [apply Hp | apply (Hstep t w w1 HP Hp)].
    + cbn [snd]. split; [apply Hp | apply (Hstep t w w1 HP Hp)].
Qed.

Lemma main_com_eq (env : Env) (acoes : list string) (w : World) :
  sqlite_fault env = NoFault ->
  main_com env acoes w =
  match for_each (processa_ticker env Conn) acoes (mundo_conectado w) with
  | (Ret _, w1) => (Ret PyNone, mundo_encerrado w1)
  | (Raise e, w1) => (Raise e, w1)
  end.
Proof.
  intros Hf. unfold main_com, dsa_cria_ou_conecta_banco. rewrite Hf.
  unfold bind, logging, sqlite3_connect, create_table_if_not_exists,
    conn_commit, conn_close, ret, visible, mundo_conectado.
  cbn [w_log w_tick w_table w_txn w_connects w_closes].
  rewrite <- app_assoc. cbn [app].
  replace (match w_table w with Some t => Some t | None => Some [] end)
    with (Some (match w_table w with Some t => t | None => [] end))
    by (destruct (w_table w); reflexivity).
  destruct (for_each (processa_ticker env Conn) acoes _) as [[r|e] w1];
    [|reflexivity].
  unfold mundo_encerrado. cbn [w_log w_tick w_table w_txn w_connects w_closes].
  rewrite <- app_assoc. reflexivity.
Qed.

Lemma passo_tabela_com_chaves (t : string) (w w' : World) :
  tabela_com_chaves w -> passo t w w' -> tabela_com_chaves w'.
Proof.
  unfold tabela_com_chaves.
  intros HP (_ & _ & _ & _ & [Hsame | (tbl & lote & Ht & Ht' & Hall & _)]).
  - rewrite Hsame. exact HP.
  - rewrite Ht in HP. rewrite Ht'. apply carga_chave_presente; assumption.
Qed.

(** ** Claims on the store *)

(** C10: no stored row lacks a key field.  The table declares [NOT NULL]
    on each column of its primary key; the statement of the loader accepts
    no tuple without both key cells; and a run of the pipeline, from a store
    whose rows all carry both key cells (a new database file among them),
    ends, however it ends, with a store whose rows all carry both. *)
Theorem chaves_nunca_nulas (env : Env) (acoes : list string) (w : World) :
  tabela_com_chaves w ->
  (forall c, In c TABELA -> In (col_name c) CHAVE_PRIMARIA -> col_notnull c = true)
  /\ (forall valores tbl tbl',
         execute_insert valores tbl = inr tbl' -> chave_presente valores)
  /\ tabela_com_chaves (snd (main_com env acoes w)).
Proof.
  intros HP. split; [|split].
  - intros c Hc Hk. cbn [In TABELA] in Hc.
    repeat (destruct Hc as [<-|Hc];
            [first [reflexivity
                   | exfalso; cbn in Hk;
                     repeat (destruct Hk as [Hk|Hk]; [discriminate|]);
                     exact Hk]|]).
    destruct Hc.
  - intros valores tbl tbl' H. apply aceita_chave_presente.
    destruct (aceita valores) eqn:E; [reflexivity|].
    destruct (execute_insert_rejeita valores tbl E) as [e He]. congruence.
  - destruct (sqlite_fault env) as [|msg|msg] eqn:Hf.
    + rewrite main_com_eq by assumption.
      assert (H0 : tabela_com_chaves (mundo_conectado w)).
      { unfold tabela_com_chaves, mundo_conectado in *. cbn [w_table].
        destruct (w_table w); [assumption | constructor]. }
      destruct (@for_each_inv env Conn tabela_com_chaves
                  passo_tabela_com_chaves acoes (mundo_conectado w)
                  eq_refl H0) as [_ H1].
      destruct (for_each (processa_ticker env Conn) acoes (mundo_conectado w))
        as [[r|e] w1]; exact H1.
    + unfold main_com, dsa_cria_ou_conecta_banco. rewrite Hf. exact HP.
    + unfold main_com, dsa_cria_ou_conecta_banco. rewrite Hf. exact HP.
Qed.

Lemma chaves_nunca_nulas_witness :
  tabela_com_chaves
    (snd (main_com (ambiente_de (Frame quadro_um_dia)) ["AAA"; "BBB"] mundo_novo)).
Proof.
  apply (@chaves_nunca_nulas (ambiente_de (Frame quadro_um_dia))
           ["AAA"; "BBB"] mundo_novo).
  exact I.
Defined.

(** ** Claims on the orchestrator *)












(** C8, as stated, fails on the summary: [main] returns [None] and nothing
    else.  In the scenario where the provider raises for "BBB" the value
    returned is the one returned when the provider serves "BBB" as well, so
    no reading of the value marks "BBB" as failed. *)
Lemma sumario_inexistente :
  ~ (exists falhou : outcome NoneType -> string -> bool,
        falhou (fst (main_com (cenario relogio_fixo (Raises "timeout"))
                       ["AAA"; "BBB"] mundo_novo)) "BBB" = true
        /\ falhou (fst (main_com (cenario relogio_fixo (Frame quadro_cinco_dias))
                          ["AAA"; "BBB"] mundo_novo)) "BBB" = false).
Proof.
  intros [falhou [H1 H2]].
  assert (E : fst (main_com (cenario relogio_fixo (Raises "timeout"))
                     ["AAA"; "BBB"] mundo_novo)
              = fst (main_com (cenario relogio_fixo (Frame quadro_cinco_dias))
                       ["AAA"; "BBB"] mundo_novo))
    by (vm_compute; reflexivity).
  rewrite E in H1. congruence.
Qed.

(** C8, amended: in the scenario where the provider returns five valid rows
    for "AAA" and raises for "BBB", the run over the two instruments on a
    new database completes and returns [None]; five rows are stored for
    "AAA" and none for "BBB"; and the failure of "BBB" is recorded in the
    log, as an error with the provider's message followed by the warning
    that the instrument was skipped. *)
Theorem cenario_ponta_a_ponta (relogio : nat -> string) (msg : string) :
  let r := main_com (cenario relogio (Raises msg)) ["AAA"; "BBB"] mundo_novo in
  fst r = Ret PyNone
  /\ option_map (fun tbl => List.length (linhas_de "AAA" tbl)) (w_table (snd r))
     = Some 5
  /\ option_map (linhas_de "BBB") (w_table (snd r)) = Some []
  /\ w_log (snd r)
     = [ (INFO, PipelineStart); (INFO, SchemaVerified);
         (INFO, ExtractStart "AAA"); (INFO, TransformStart "AAA");
         (INFO, LoadSucceeded [VText "AAA"]);
         (INFO, ExtractStart "BBB"); (ERROR, ExtractFailed "BBB" msg);
         (WARNING, Skipped "BBB");
         (INFO, ConnectionClosed); (INFO, PipelineDone) ].
Proof.
  cbv zeta. repeat split; vm_compute; reflexivity.
Qed.

(** * Further properties of the code *)

(** ** The schema manager *)

(** X1: the schema manager never changes a stored row, and running it
    again changes nothing.  Whatever the backend does, a table that exists
    keeps its rows; a connection is returned exactly when the backend has no
    fault; and then the table exists afterwards and a second call leaves it
    as the first one did. *)
Theorem esquema_preserva_linhas (env : Env) (w : World) :
  let r := dsa_cria_ou_conecta_banco env w in
  (forall tbl, w_table w = Some tbl -> w_table (snd r) = Some tbl)
  /\ (fst r = Ret (Some Conn) <-> sqlite_fault env = NoFault)
  /\ (sqlite_fault env = NoFault ->
      w_table (snd r) <> None
      /\ w_table (snd (dsa_cria_ou_conecta_banco env (snd r))) = w_table (snd r)).
Proof.
  cbv zeta. unfold dsa_cria_ou_conecta_banco.
  destruct (sqlite_fault env) as [|msg|msg] eqn:Hf.
  - unfold bind, sqlite3_connect, create_table_if_not_exists, conn_commit,
      logging, ret, visible.
    cbn [fst snd w_log w_tick w_table w_txn w_connects w_closes].
    split; [intros tbl ->; reflexivity|]. split; [tauto|]. intros _.
    destruct (w_table w); split; try discriminate; reflexivity.
  - unfold bind, logging, ret. cbn [fst snd w_table].
    split; [auto|]. split; [|discriminate]. split; discriminate.
  - unfold bind, sqlite3_connect, logging, ret. cbn [fst snd w_table].
    split; [auto|]. split; [|discriminate]. split; discriminate.
Qed.

(** ** The fatal path of the run *)

(** X2: when the connection cannot be made the run stops before the first
    instrument.  With a backend fault, [main] over any list of instruments
    returns without asking the provider or the clock, leaves the store as it
    was, closes nothing, and logs the start, the error of the backend and the
    critical record, in that order. *)
Theorem falha_de_conexao_encerra (env : Env) (acoes : list string) (w : World) :
  sqlite_fault env <> NoFault ->
  let r := main_com env acoes w in
  fst r = Ret PyNone
  /\ w_table (snd r) = w_table w
  /\ w_tick (snd r) = w_tick w
  /\ w_closes (snd r) = w_closes w
  /\ exists msg,
      w_log (snd r)
      = w_log w ++ [(INFO, PipelineStart); (ERROR, ConnectFailed msg);
                    (CRITICAL, NoConnection)].
Proof.
  intros Hf. cbv zeta. unfold main_com, dsa_cria_ou_conecta_banco.
  destruct (sqlite_fault env) as [|msg|msg]; [congruence| |];
    unfold bind, sqlite3_connect, logging, ret;
    cbn [fst snd w_log w_tick w_table w_txn w_connects w_closes];
    repeat (split; [reflexivity|]); exists msg;
    rewrite <- !app_assoc; reflexivity.
Qed.

Lemma falha_de_conexao_encerra_witness :
  w_tick (snd (main_com (ambiente_com_falha (ConnectFails "unable to open database file"))
                 ACOES_PARA_ACOMPANHAR mundo_novo)) = 0.
Proof.
  apply (@falha_de_conexao_encerra
           (ambiente_com_falha (ConnectFails "unable to open database file"))
           ACOES_PARA_ACOMPANHAR mundo_novo).
  discriminate.
Defined.

(** ** The loader, by position *)

(** X3: the loader binds by position and never by label.  Two frames with
    rows that hold the same cells in the same order leave the same committed
    table, whatever their columns are called. *)
Theorem carga_por_posicao (df1 df2 : DataFrame) (conn : Connection) (w : World) :
  df_empty df1 = false ->
  df_empty df2 = false ->
  lote_de df1 = lote_de df2 ->
  w_table (snd (dsa_carrega_dados (Some df1) conn w))
  = w_table (snd (dsa_carrega_dados (Some df2) conn w)).
Proof.
  intros H1 H2 Hl.
  destruct (dsa_carrega_dados_spec df1 conn w H1)
    as [(tbl1 & Hv1 & Hall1 & Hrun1) | (Hwhy1 & msg1 & Hrun1)];
    destruct (dsa_carrega_dados_spec df2 conn w H2)
      as [(tbl2 & Hv2 & Hall2 & Hrun2) | (Hwhy2 & msg2 & Hrun2)].
  - assert (tbl1 = tbl2) by congruence. subst tbl2.
    destruct (ticker_log df1); destruct (ticker_log df2);
      rewrite Hrun1, Hrun2; cbn [snd w_table]; rewrite Hl; reflexivity.
  - exfalso. rewrite <- Hl in Hwhy2. destruct Hwhy2 as [Hn|Hf]; [congruence|].
    assert (Hb : forallb aceita (lote_de df1) = true)
      by (apply forallb_forall; apply Forall_forall; exact Hall1).
    congruence.
  - exfalso. rewrite Hl in Hwhy1. destruct Hwhy1 as [Hn|Hf]; [congruence|].
    assert (Hb : forallb aceita (lote_de df2) = true)
      by (apply forallb_forall; apply Forall_forall; exact Hall2).
    congruence.
  - rewrite Hrun1, Hrun2. reflexivity.
Qed.

Lemma carga_por_posicao_witness :
  w_table (snd (dsa_carrega_dados (Some lote_bom) Conn mundo_com_linha))
  = w_table (snd (dsa_carrega_dados (Some lote_bom_sem_rotulos) Conn
                    mundo_com_linha)).
Proof.
  apply (@carga_por_posicao lote_bom lote_bom_sem_rotulos Conn mundo_com_linha);
    reflexivity.
Defined.




(** ** The transformer without a date column *)

(** X5: a frame whose index is not named [Date] makes the transformer raise.
    When the column that [reset_index] makes of the index is not renamed to
    [data_pregao], and no column of the frame is, line 141 raises
    [KeyError] for [data_pregao]; by then the start is logged and the clock
    is read, and nothing catches the exception. *)
Theorem indice_sem_data_levanta (env : Env) (df : DataFrame) (ticker : string)
  (w : World) :
  df_empty df = false ->
  has_column (reset_index_label df) df = false ->
  reset_index_label df <> "Date" ->
  reset_index_label df <> "data_pregao" ->
  has_column "Date" df = false ->
  has_column "data_pregao" df = false ->
  dsa_limpa_e_transforma_dados env (Some df) ticker w
  = (Raise (KeyError "data_pregao"), apos_transformar ticker w).
Proof.
  intros Hne Hlbl HnD Hnd HcD Hcd.
  rewrite dsa_limpa_e_transforma_dados_eq by assumption.
  unfold reset_index. rewrite Hlbl.
  unfold converte_data_pregao. rewrite columns_of_nil; [reflexivity|].
  intros Hin. apply in_map_iff in Hin. destruct Hin as (col & Hl & Hin).
  apply projeta_labels in Hin. destruct Hin as (_ & l & Hr & Hwhere).
  rewrite Hl in Hr. symmetry in Hr. apply rename_label_data_pregao in Hr.
  apply has_column_false in HcD, Hcd.
  destruct Hwhere as [->|[->|Hwhere]].
  - destruct Hr; discriminate.
  - destruct Hr; discriminate.
  - unfold df_columns in Hwhere. cbn [df_data map fst] in Hwhere.
    destruct Hwhere as [E|Hwhere].
    + destruct Hr as [Hr|Hr]; rewrite Hr in E; congruence.
    + destruct Hr as [Hr|Hr]; rewrite Hr in Hwhere; contradiction.
Qed.

Lemma indice_sem_data_levanta_witness :
  fst (dsa_limpa_e_transforma_dados (ambiente_de (Frame quadro_mal_indexado))
         (Some quadro_mal_indexado) "AAA" mundo_novo)
  = Raise (KeyError "data_pregao").
Proof.
  rewrite (@indice_sem_data_levanta (ambiente_de (Frame quadro_mal_indexado))
             quadro_mal_indexado "AAA" mundo_novo).
  - reflexivity.
  - reflexivity.
  - reflexivity.
  - discriminate.
  - discriminate.
  - reflexivity.
  - reflexivity.
Defined.

(** ** What a run keeps *)

Lemma chave_dois (a b : value) (x : list value) : chave (a :: b :: x) = [a; b].
Proof.
  unfold chave.
  destruct x as [|? [|? [|? [|? [|? [|? ?]]]]]]; reflexivity.
Qed.

(** The statement never changes the key of the row it updates. *)
Lemma do_update_chave (x r : SqlRow) :
  aceita r = true -> chave x = chave r -> chave (do_update TABELA x r) = chave x.
Proof.
  intros Hr Hk.
  destruct (aceita_shape r Hr) as (t & d & o & h & l & c & v & ca & -> & _).
  rewrite chave_dois in Hk.
  destruct x as [|a [|b x]]; try (unfold chave in Hk; cbn in Hk; discriminate).
  rewrite chave_dois in Hk. injection Hk as -> ->.
  change (do_update TABELA (t :: d :: x) [t; d; o; h; l; c; v; ca])
    with (t :: d :: do_update (tl (tl TABELA)) x [o; h; l; c; v; ca]).
  rewrite !chave_dois. reflexivity.
Qed.

Lemma upsert_mantem_chave (r : SqlRow) (tbl : list SqlRow) (k : list value) :
  aceita r = true ->
  In k (map chave tbl) -> In k (map chave (upsert r tbl)).
Proof.
  intros Hr. induction tbl as [|x tbl IH]; intros Hk.
  - destruct Hk.
  - rewrite upsert_cons. destruct (same_key x r) eqn:K.
    + apply same_key_true in K. cbn [map] in *.
      rewrite (@do_update_chave x r Hr K). exact Hk.
    + cbn [map] in *. destruct Hk as [Hk|Hk]; [left; exact Hk | right; auto].
Qed.

Lemma upsert_length (r : SqlRow) (tbl : list SqlRow) :
  List.length tbl <= List.length (upsert r tbl).
Proof.
  induction tbl as [|x tbl IH].
  - cbn. lia.
  - rewrite upsert_cons. destruct (same_key x r); cbn [List.length]; lia.
Qed.

Lemma carga_mantem_chave (lote : list (list value)) :
  Forall (fun r => aceita r = true) lote ->
  forall tbl k, In k (map chave tbl) -> In k (map chave (carga lote tbl)).
Proof.
  induction 1 as [|r lote Hr Hl IH]; intros tbl k Hk.
  - exact Hk.
  - rewrite carga_cons. apply IH. apply upsert_mantem_chave; assumption.
Qed.

Lemma carga_length (lote : list (list value)) :
  forall tbl, List.length tbl <= List.length (carga lote tbl).
Proof.
  induction lote as [|r lote IH]; intros tbl.
  - cbn. lia.
  - rewrite carga_cons. pose proof (upsert_length r tbl).
    pose proof (IH (upsert r tbl)). lia.
Qed.

Lemma do_ticker_true (t : string) (r : SqlRow) :
  do_ticker t r = true -> hd VNull r = VText t.
Proof.
  unfold do_ticker, value_eqb.
  destruct (value_eq_dec (hd VNull r) (VText t)); [auto | discriminate].
Qed.

Lemma linhas_de_outros_de (t t' : string) (tbl : list SqlRow) :
  t <> t' -> linhas_de t (linhas_de_outros t' tbl) = linhas_de t tbl.
Proof.
  intros Hne. unfold linhas_de, linhas_de_outros.
  induction tbl as [|x tbl IH]; [reflexivity|].
  cbn [filter].
  destruct (do_ticker t' x) eqn:E'; destruct (do_ticker t x) eqn:E;
    cbn [negb filter]; rewrite ?E, IH; try reflexivity.
  exfalso. apply do_ticker_true in E, E'. apply Hne. congruence.
Qed.

(** The batch of one instrument leaves the rows of another as they are. *)
Lemma carga_linhas_de (t t' : string) (lote : list (list value))
  (tbl : list SqlRow) :
  t <> t' ->
  Forall (fun r => aceita r = true) lote ->
  Forall (fun r => hd VNull r = VText t') lote ->
  linhas_de t (carga lote tbl) = linhas_de t tbl.
Proof.
  intros Hne Hall Hhd.
  rewrite <- (@linhas_de_outros_de t t' (carga lote tbl) Hne).
  rewrite (@carga_outros t' lote Hall Hhd). apply linhas_de_outros_de. exact Hne.
Qed.

(** A property every iteration keeps for the instruments of the list is
    kept by the loop over the list. *)
Lemma for_each_inv_in (env : Env) (conn : Connection) (P : World -> Prop)
  (l : list string) :
  (forall t w w', In t l -> P w -> passo t w w' -> P w') ->
  forall w,
    w_txn w = None -> P w ->
    P (snd (for_each (processa_ticker env conn) l w)).
Proof.
  induction l as [|t l IH]; intros Hstep w Htxn HP.
  - exact HP.
  - rewrite for_each_cons.
    pose proof (@processa_ticker_passo env conn t w Htxn) as Hp.
    destruct (processa_ticker env conn t w) as [[r|e] w1]; cbn [snd] in Hp.
    + apply IH.
      * intros t0 w0 w0' Hin. apply Hstep. right. exact Hin.
      * apply Hp.
      * apply (Hstep t w w1); [left; reflexivity | exact HP | exact Hp].
    + cbn [snd]. apply (Hstep t w w1); [left; reflexivity | exact HP | exact Hp].
Qed.

Lemma passo_conserva (acoes : list string) (tbl : list SqlRow) (t : string)
  (w w' : World) :
  In t acoes -> conserva acoes tbl w -> passo t w w' -> conserva acoes tbl w'.
Proof.
  intros Hin (tbl1 & Ht1 & Hk1 & Hl1 & Ho1)
         (_ & _ & _ & _ & [Hsame | (tbl0 & lote & Ht & Ht' & Hall & Hhd)]).
  - exists tbl1. rewrite Hsame. auto.
  - assert (tbl0 = tbl1) by congruence. subst tbl0.
    exists (carga lote tbl1). split; [exact Ht'|]. split; [|split].
    + intros k Hk. apply carga_mantem_chave; auto.
    + pose proof (carga_length lote tbl1). lia.
    + intros t0 Ht0. rewrite <- (Ho1 t0 Ht0).
      apply (@carga_linhas_de t0 t lote tbl1); auto.
      intros ->. contradiction.
Qed.

(** X6: a run deletes nothing and touches no instrument outside its list.
    Whatever the provider and the backend do, and however the run ends, the
    table after the run holds every key it held before and at least as many
    rows, and the rows of every instrument that is not in the list are the
    ones stored before, in the same order. *)
Theorem execucao_nao_apaga (env : Env) (acoes : list string) (w : World)
  (tbl : list SqlRow) :
  w_table w = Some tbl ->
  exists tbl',
    w_table (snd (main_com env acoes w)) = Some tbl'
    /\ (forall k, In k (map chave tbl) -> In k (map chave tbl'))
    /\ List.length tbl <= List.length tbl'
    /\ (forall t, ~ In t acoes -> linhas_de t tbl' = linhas_de t tbl).
Proof.
  intros Ht.
  assert (H0 : forall w0, w_table w0 = Some tbl -> conserva acoes tbl w0).
  { intros w0 H. exists tbl. auto. }
  change (conserva acoes tbl (snd (main_com env acoes w))).
  destruct (sqlite_fault env) as [|msg|msg] eqn:Hf.
  - rewrite main_com_eq by assumption.
    pose proof (@for_each_inv_in env Conn (conserva acoes tbl) acoes
                  (fun t w0 w0' Hin => @passo_conserva acoes tbl t w0 w0' Hin)
                  (mundo_conectado w) eq_refl) as Hinv.
    assert (Hc : conserva acoes tbl (mundo_conectado w)).
    { apply H0. unfold mundo_conectado. cbn [w_table]. rewrite Ht. reflexivity. }
    specialize (Hinv Hc).
    destruct (for_each (processa_ticker env Conn) acoes (mundo_conectado w))
      as [[r|e] w1]; exact Hinv.
  - apply H0. unfold main_com, dsa_cria_ou_conecta_banco. rewrite Hf. exact Ht.
  - apply H0. unfold main_com, dsa_cria_ou_conecta_banco. rewrite Hf. exact Ht.
Qed.

Lemma execucao_nao_apaga_witness :
  exists tbl',
    w_table (snd (main_com (cenario relogio_fixo (Raises "timeout"))
                    ["AAA"; "BBB"] mundo_com_linha)) = Some tbl'
    /\ In [VText "AAA"; VDate (dia 1)] (map chave tbl').
Proof.
  destruct (@execucao_nao_apaga (cenario relogio_fixo (Raises "timeout"))
              ["AAA"; "BBB"] mundo_com_linha
              [[VText "AAA"; VDate (dia 1); VFloat (7 # 1); VFloat (7 # 1);
                VFloat (7 # 1); VFloat (7 # 1); VInt 5;
                VText "2024-03-05 10:00:00"]] eq_refl)
    as (tbl' & H1 & H2 & _).
  exists tbl'. split; [exact H1|]. apply H2. left. reflexivity.
Defined.

(** ** One extraction per instrument *)

Lemma extracoes_app (a b : list LogRecord) :
  extracoes (a ++ b) = extracoes a ++ extracoes b.
Proof. unfold extracoes. apply flat_map_app. Qed.

(** An iteration logs the start of one extraction, that of its instrument,
    before anything else it logs. *)
Lemma processa_ticker_log (env : Env) (conn : Connection) (ticker : string)
  (w : World) :
  exists resto,
    w_log (snd (processa_ticker env conn ticker w))
    = w_log w ++ (INFO, ExtractStart ticker) :: resto
    /\ extracoes resto = [].
Proof.
  rewrite processa_ticker_eq.
  destruct (yf_history env (w_tick w) ticker) as [msg|dados].
  { eexists. cbn [snd com_log apos_extrair w_log]. rewrite <- app_assoc.
    split; reflexivity. }
  destruct (df_empty dados) eqn:Hne.
  { eexists. cbn [snd com_log apos_extrair w_log]. rewrite <- app_assoc.
    split; reflexivity. }
  destruct (dsa_limpa_e_transforma_dados env (Some dados) ticker
              (apos_extrair ticker w)) as [[[df|]|e] w2] eqn:Htr.
  - destruct (transforma_ticker _ _ _ _ Htr) as (_ & -> & _).
    destruct (transforma_lote _ _ _ _ Htr) as (Hdf & _).
    destruct (dsa_carrega_dados_spec df conn
                (apos_transformar ticker (apos_extrair ticker w)) Hdf)
      as [(tbl & _ & _ & Hrun) | (_ & msg & Hrun)].
    + destruct (ticker_log df); rewrite Hrun;
        cbn [snd w_log apos_transformar apos_extrair];
        rewrite <- ?app_assoc; eexists; split; reflexivity.
    + rewrite Hrun. cbn [snd w_log apos_transformar apos_extrair].
      rewrite <- !app_assoc. eexists. split; reflexivity.
  - rewrite dsa_limpa_e_transforma_dados_eq in Htr by assumption.
    destruct (reset_index dados); [|discriminate].
    match type of Htr with
    | context [converte_data_pregao ?e ?d] =>
        destruct (converte_data_pregao e d); discriminate
    end.
  - cbn [snd]. rewrite dsa_limpa_e_transforma_dados_eq in Htr by assumption.
    destruct (reset_index dados).
    + match type of Htr with
      | context [converte_data_pregao ?e ?d] =>
          destruct (converte_data_pregao e d); [discriminate|]
      end.
      injection Htr as _ <-. cbn [w_log apos_transformar apos_extrair].
      rewrite <- app_assoc. eexists. split; reflexivity.
    + injection Htr as _ <-. cbn [w_log apos_extrair].
      rewrite <- app_assoc. eexists. split; reflexivity.
Qed.

Lemma processa_ticker_extracoes (env : Env) (conn : Connection)
  (ticker : string) (w : World) :
  extracoes (w_log (snd (processa_ticker env conn ticker w)))
  = extracoes (w_log w) ++ [ticker].
Proof.
  destruct (processa_ticker_log env conn ticker w) as (resto & Hlog & Hr).
  rewrite Hlog, extracoes_app.
  change ((INFO, ExtractStart ticker) :: resto)
    with ([(INFO, ExtractStart ticker)] ++ resto).
  rewrite extracoes_app, Hr. reflexivity.
Qed.

(** The loop starts the extractions of a prefix of its list, in order, and
    of the whole list when it ends without an exception. *)
Lemma for_each_extracoes (env : Env) (conn : Connection) (l : list string) :
  forall w, exists feitas restantes,
    l = feitas ++ restantes
    /\ extracoes (w_log (snd (for_each (processa_ticker env conn) l w)))
       = extracoes (w_log w) ++ feitas
    /\ (fst (for_each (processa_ticker env conn) l w) = Ret PyNone ->
        restantes = []).
Proof.
  induction l as [|t l IH]; intros w.
  - exists [], []. cbn [for_each ret fst snd app]. rewrite app_nil_r. auto.
  - rewrite for_each_cons.
    pose proof (processa_ticker_extracoes env conn t w) as Ht.
    destruct (processa_ticker env conn t w) as [[r|e] w1]; cbn [snd] in Ht.
    + destruct (IH w1) as (feitas & restantes & Hl & Hx & Hend).
      exists (t :: feitas), restantes. split; [cbn [app]; congruence|].
      split; [|exact Hend].
      rewrite Hx, Ht, <- app_assoc. reflexivity.
    + exists [t], l. cbn [fst snd]. split; [reflexivity|].
      split; [exact Ht | discriminate].
Qed.

(** X7: one pass, one attempt per instrument, in the order of the list.
    On a run that connects, the extractions the log records are the
    instruments of a prefix of the list, each once and in the order of the
    list; when the run ends without an exception they are the whole list. *)
Theorem uma_extracao_por_ticker (env : Env) (acoes : list string) (w : World) :
  sqlite_fault env = NoFault ->
  exists feitas restantes,
    acoes = feitas ++ restantes
    /\ extracoes (w_log (snd (main_com env acoes w)))
       = extracoes (w_log w) ++ feitas
    /\ (fst (main_com env acoes w) = Ret PyNone -> feitas = acoes).
Proof.
  intros Hf. rewrite main_com_eq by assumption.
  destruct (for_each_extracoes env Conn acoes (mundo_conectado w))
    as (feitas & restantes & Hl & Hx & Hend).
  exists feitas, restantes. split; [exact Hl|].
  assert (H0 : extracoes (w_log (mundo_conectado w)) = extracoes (w_log w)).
  { unfold mundo_conectado. cbn [w_log]. rewrite extracoes_app.
    cbn. apply app_nil_r. }
  rewrite H0 in Hx.
  destruct (for_each (processa_ticker env Conn) acoes (mundo_conectado w))
    as [[r|e] w1]; cbn [fst snd] in *.
  - split.
    + unfold mundo_encerrado. cbn [w_log]. rewrite extracoes_app, Hx.
      cbn. apply app_nil_r.
    + intros _. destruct r. rewrite (Hend eq_refl) in Hl.
      rewrite app_nil_r in Hl. congruence.
  - split; [exact Hx | discriminate].
Qed.

Lemma uma_extracao_por_ticker_witness :
  extracoes
    (w_log (snd (main_com (cenario relogio_fixo (Raises "timeout"))
                   ["AAA"; "BBB"; "AAA"] mundo_novo)))
  = ["AAA"; "BBB"; "AAA"].
Proof.
  destruct (@uma_extracao_por_ticker (cenario relogio_fixo (Raises "timeout"))
              ["AAA"; "BBB"; "AAA"] mundo_novo eq_refl)
    as (feitas & restantes & _ & Hx & Hend).
  rewrite Hx. rewrite Hend; reflexivity.
Defined.

(** ** What every frame of the transformer holds *)

Lemma set_column_len (c : string) (v : value) (df : DataFrame) :
  df_len (set_column c v df) = df_len df.
Proof. unfold set_column, df_len. destruct (has_column c df); reflexivity. Qed.

Lemma rename_label_datetime_coleta (c : string) :
  rename_label c = "datetime_coleta" -> c = "datetime_coleta".
Proof.
  unfold rename_label.
  repeat match goal with
         | |- context [String.eqb c ?s] => destruct (String.eqb c s)
         end; intros H; try discriminate; assumption.
Qed.

(** A frame the transformer returns is the frame of line 138, made from
    what [reset_index] returned, with its dates converted. *)
Lemma transforma_inverte (env : Env) (df df_final : DataFrame)
  (ticker : string) (w w' : World) :
  dsa_limpa_e_transforma_dados env (Some df) ticker w = (Ret (Some df_final), w') ->
  exists df1,
    reset_index df = Ret df1
    /\ df_len df1 = df_len df
    /\ converte_data_pregao env
         (projeta ticker (datetime_now env (w_tick w)) df1) = Ret df_final
    /\ w' = apos_transformar ticker w.
Proof.
  intros H.
  destruct (df_empty df) eqn:Hne.
  { unfold dsa_limpa_e_transforma_dados in H. rewrite Hne in H. discriminate. }
  rewrite dsa_limpa_e_transforma_dados_eq in H by assumption.
  destruct (reset_index df) as [df1|e] eqn:Hr; [|discriminate].
  exists df1. split; [reflexivity|]. split.
  - unfold reset_index in Hr.
    destruct (has_column (reset_index_label df) df); [discriminate|].
    injection Hr as <-. unfold df_len at 1. cbn [df_index].
    apply range_index_length.
  - destruct (converte_data_pregao env _) as [d|e]; [|discriminate].
    injection H as <- <-. auto.
Qed.

Lemma converte_data_pregao_dados (env : Env) (df df' : DataFrame) :
  converte_data_pregao env df = Ret df' ->
  map_outcome (converte_coluna env) (df_data df) = Ret (df_data df')
  /\ columns_of "data_pregao" (df_data df) <> [].
Proof.
  unfold converte_data_pregao. intros H.
  destruct (columns_of "data_pregao" (df_data df)) as [|c0 [|c1 cs]];
    try discriminate.
  fold (converte_coluna env) in H.
  destruct (map_outcome (converte_coluna env) (df_data df)) as [data'|];
    [|discriminate].
  injection H as <-. split; [reflexivity | discriminate].
Qed.

(** The conversion keeps the labels, and every column but the date column. *)
Lemma map_converte_rotulos (env : Env) (data : list (string * list value)) :
  forall data',
    map_outcome (converte_coluna env) data = Ret data' ->
    map fst data' = map fst data
    /\ forall c, c <> "data_pregao" -> columns_of c data' = columns_of c data.
Proof.
  induction data as [|col data IH]; intros data' H.
  - injection H as <-. split; reflexivity.
  - cbn [map_outcome] in H.
    destruct (converte_coluna env col) as [col'|] eqn:Hc; [|discriminate].
    destruct (map_outcome (converte_coluna env) data) as [rest|]; [|discriminate].
    injection H as <-. destruct (IH rest eq_refl) as [Hl Ho].
    unfold converte_coluna in Hc.
    destruct (String.eqb "data_pregao" (fst col)) eqn:E.
    + destruct (map_outcome (to_date env) (snd col)); [|discriminate].
      injection Hc as <-. cbn [map fst]. split; [f_equal; exact Hl|].
      intros c Hne. unfold columns_of in *. cbn [filter fst].
      apply String.eqb_eq in E. rewrite <- E.
      replace (String.eqb c "data_pregao") with false
        by (symmetry; apply String.eqb_neq; exact Hne).
      apply Ho. exact Hne.
    + injection Hc as <-. cbn [map]. split; [f_equal; exact Hl|].
      intros c Hne. unfold columns_of in *. cbn [filter].
      rewrite (Ho c Hne). reflexivity.
Qed.

(** A wanted label the frame before the selection has is a label of the
    selection. *)
Lemma select_columns_tem (c : string) (df : DataFrame) :
  In c colunas_desejadas -> has_column c df = true ->
  columns_of c (df_data (select_columns (colunas_existentes df) df))
  = columns_of c (df_data df).
Proof.
  intros Hc Hh. unfold select_columns. cbn [df_data].
  rewrite columns_of_select by apply colunas_existentes_NoDup.
  destruct (in_dec string_dec c (colunas_existentes df)) as [i|n];
    [reflexivity|].
  exfalso. apply n. apply colunas_existentes_In. auto.
Qed.

Lemma columns_of_nao_vazio (c : string) (data : list (string * list value)) :
  In c (map fst data) -> columns_of c data <> [].
Proof.
  intros Hin E. apply in_map_iff in Hin. destruct Hin as (col & Hl & Hin).
  assert (H : In col (columns_of c data)) by (apply columns_of_In; auto).
  rewrite E in H. destruct H.
Qed.

Lemma columns_of_rotulo (c : string) (data : list (string * list value)) :
  columns_of c data <> [] -> In c (map fst data).
Proof.
  intros H. destruct (columns_of c data) as [|col cols] eqn:E; [congruence|].
  assert (Hin : In col (columns_of c data)) by (rewrite E; left; reflexivity).
  apply columns_of_In in Hin. destruct Hin as [Hin <-]. apply in_map. exact Hin.
Qed.

(** X8: the projection is fixed.  Every frame the transformer returns has
    no column outside the eight of the table, whatever other columns the
    provider sent, and always has the three the transformer makes itself:
    [ticker], [data_pregao] and [datetime_coleta]. *)
Theorem projecao_fixa (env : Env) (df df_final : DataFrame) (ticker : string)
  (w w' : World) :
  dsa_limpa_e_transforma_dados env (Some df) ticker w = (Ret (Some df_final), w') ->
  (forall c, In c (df_columns df_final) -> In c colunas_desejadas)
  /\ In "ticker" (df_columns df_final)
  /\ In "data_pregao" (df_columns df_final)
  /\ In "datetime_coleta" (df_columns df_final).
Proof.
  intros H. destruct (transforma_inverte _ _ _ _ H) as (df1 & _ & _ & Hc & _).
  destruct (converte_data_pregao_dados _ _ Hc) as [Hm Hdp].
  destruct (map_converte_rotulos _ _ Hm) as [Hl Ho].
  unfold df_columns. rewrite Hl.
  set (P := projeta ticker (datetime_now env (w_tick w)) df1) in *.
  split; [|split; [|split]].
  - intros c Hin. apply in_map_iff in Hin. destruct Hin as (col & <- & Hin).
    apply (projeta_labels _ _ _ _ Hin).
  - destruct (projeta_ticker ticker (datetime_now env (w_tick w)) df1)
      as (rest & Hd & _).
    fold P in Hd. rewrite Hd. left. reflexivity.
  - apply columns_of_rotulo. exact Hdp.
  - apply columns_of_rotulo. subst P. unfold projeta.
    rewrite select_columns_tem.
    + apply columns_of_nao_vazio. apply has_column_In.
      apply rename_columns_has; [repeat (first [left; reflexivity | right])|].
      apply set_column_has.
    + repeat (first [left; reflexivity | right]).
    + apply rename_columns_has; [repeat (first [left; reflexivity | right])|].
      apply set_column_has.
Qed.

Lemma projecao_fixa_witness :
  In "datetime_coleta"
     (df_columns (transformado "AAA" "2024-03-06 10:00:00" quadro_cinco_dias)).
Proof.
  destruct (@projecao_fixa (ambiente_de (Frame quadro_cinco_dias))
              quadro_cinco_dias
              (transformado "AAA" "2024-03-06 10:00:00" quadro_cinco_dias)
              "AAA" mundo_novo (apos_transformar "AAA" mundo_novo) eq_refl)
    as (_ & _ & _ & H).
  exact H.
Defined.

(** X9: one collection stamp per batch.  The transformer reads the clock
    once, and in every frame it returns each [datetime_coleta] cell of each
    row holds that one reading, also when the provider sent a column of that
    name. *)
Theorem coleta_unica_por_lote (env : Env) (df df_final : DataFrame)
  (ticker : string) (w w' : World) :
  dsa_limpa_e_transforma_dados env (Some df) ticker w = (Ret (Some df_final), w') ->
  w_tick w' = S (w_tick w)
  /\ forall col,
      In col (df_data df_final) -> fst col = "datetime_coleta" ->
      snd col = repeat (VText (datetime_now env (w_tick w))) (df_len df).
Proof.
  intros H. destruct (transforma_inverte _ _ _ _ H) as (df1 & _ & Hlen & Hc & ->).
  split; [reflexivity|].
  destruct (converte_data_pregao_dados _ _ Hc) as [Hm _].
  destruct (map_converte_rotulos _ _ Hm) as [_ Ho].
  intros col Hin Hl.
  assert (H1 : In col (columns_of "datetime_coleta" (df_data df_final)))
    by (apply columns_of_In; auto).
  rewrite Ho in H1 by discriminate.
  apply columns_of_In in H1. destruct H1 as [H1 _].
  unfold projeta in H1. apply select_columns_In in H1. destruct H1 as [H1 _].
  apply rename_columns_In in H1. destruct H1 as (col0 & H0 & Hr & Hs).
  rewrite Hl in Hr. symmetry in Hr. apply rename_label_datetime_coleta in Hr.
  rewrite Hs.
  rewrite (@set_column_cells "datetime_coleta"
             (VText (datetime_now env (w_tick w)))
             (set_column "ticker" (VText ticker) df1) col0 H0 Hr).
  rewrite set_column_len, Hlen. reflexivity.
Qed.

Lemma coleta_unica_por_lote_witness :
  w_tick (apos_transformar "AAA" mundo_novo) = 1.
Proof.
  apply (@coleta_unica_por_lote (ambiente_de (Frame quadro_cinco_dias))
           quadro_cinco_dias
           (transformado "AAA" "2024-03-06 10:00:00" quadro_cinco_dias)
           "AAA" mundo_novo (apos_transformar "AAA" mundo_novo)).
  reflexivity.
Defined.

(** ** The frame of a provider that labels its columns once *)














(** ** One instrument, end to end *)






Lemma data_de_nula (x : value) : is_null x = true -> is_null (data_de x) = true.
Proof. destruct x; intros H; try discriminate; reflexivity. Qed.




Lemma forallb_falso (A : Type) (f : A -> bool) (x : A) (l : list A) :
  In x l -> f x = false -> forallb f l = false.
Proof.
  intros Hin Hf. destruct (forallb f l) eqn:E; [|reflexivity].
  rewrite forallb_forall in E. rewrite (E x Hin) in Hf. discriminate.
Qed.









